(** * ISPCRT boundary layer (ispcrt.cpp): a shallow embedding

    The C entry points of [ispcrt.cpp] resolve opaque handles to objects,
    call into a backend and translate every C++ exception that reaches the
    entry point into a call of the process-wide error function.

    The embedding has two layers, as the source has:
    - code that runs inside a [try] block is a computation [B A] over the
      object store; it returns, throws, or has undefined behaviour;
    - an entry point is a computation [M A] over the whole process state
      (store, registered error function, what the error functions did);
      besides returning it can end the process ([exit]). *)

From Stdlib Require Import ZArith NArith String List Lia.
From stdpp Require Import base option gmap.

Local Open Scope Z_scope.

(** ** ispcrt.h: enumerations and plain structs *)

(** Only the two enumerators that [ispcrt.cpp] names are spelled out; any
    other code a backend puts in an [ispcrt_runtime_error] is
    [ISPCRT_other_error]. *)
Inductive ISPCRTError :=
| ISPCRT_UNKNOWN_ERROR
| ISPCRT_INVALID_OPERATION
| ISPCRT_other_error (code : Z).

(** A C enum parameter can carry any integer: [ISPCRT_DEVICE_TYPE_other]
    stands for the values that reach the [default:] label of a switch. *)
Inductive ISPCRTDeviceType :=
| ISPCRT_DEVICE_TYPE_CPU
| ISPCRT_DEVICE_TYPE_GPU
| ISPCRT_DEVICE_TYPE_AUTO
| ISPCRT_DEVICE_TYPE_other (v : Z).

Inductive ISPCRTAllocationType :=
| ISPCRT_ALLOC_TYPE_SHARED
| ISPCRT_ALLOC_TYPE_DEVICE
| ISPCRT_ALLOC_TYPE_UNKNOWN
| ISPCRT_ALLOC_TYPE_other (v : Z).

Record ISPCRTNewMemoryViewFlags := { allocType : ISPCRTAllocationType }.

Record ISPCRTDeviceInfo := { vendorId : N; deviceId : N }.

#[global] Instance ISPCRTError_eq_dec : EqDecision ISPCRTError.
Proof. solve_decision. Defined.
#[global] Instance ISPCRTDeviceType_eq_dec : EqDecision ISPCRTDeviceType.
Proof. solve_decision. Defined.
#[global] Instance ISPCRTAllocationType_eq_dec : EqDecision ISPCRTAllocationType.
Proof. solve_decision. Defined.

(** ** Exceptions

    The classes the four [catch] clauses of [ISPCRT_CATCH_END] tell apart.
    [std::runtime_error] derives from [std::exception] and not from
    [std::logic_error]; [ispcrt_runtime_error] carries an [ISPCRTError]. *)
Inductive exn :=
| ispcrt_runtime_error (e : ISPCRTError) (what : string)
| std_logic_error (what : string)     (* std::logic_error and what derives from it *)
| std_runtime_error (what : string)   (* a std::runtime_error that is no ispcrt_runtime_error *)
| std_exception (what : string)       (* any other std::exception *)
| foreign_exception.                  (* anything else that was thrown *)

(** ** The object store *)

(** Handles and native pointers are addresses; [nullptr] is address 0. *)
Definition nullptr : N := 0%N.

Inductive BackendKind := CPU | GPU.

#[global] Instance BackendKind_eq_dec : EqDecision BackendKind.
Proof. solve_decision. Defined.

Inductive Command :=
| CmdBarrier
| CmdCopyToDevice (view : N)
| CmdCopyToHost (view : N)
| CmdCopyMemoryView (dst src : N) (size : N)
| CmdLaunch (kernel params : N) (dim0 dim1 dim2 : N).

(** Modelled from the spec: the attributes of the objects behind the
    handles (the classes of detail/*.h are not part of the sources).  A
    memory view has a host pointer, a device pointer, a byte size and an
    allocation type, all pure reads; a context holds its backend kind and
    a native handle; a future has a validity flag and a time; a task
    queue is an ordered command stream. *)
Record MemoryView := { hostPtr : N; devicePtr : N; numBytes : N; isShared : bool }.
Record Future := { valid : bool; time : N }.

Inductive Payload :=
| PDevice (kind : BackendKind) (unit_index : N)
| PContext (kind : BackendKind) (native : N)
| PMemoryView (mv : MemoryView)
| PModule (device : N) (file : string)
| PKernel (device module : N) (name : string)
| PTaskQueue (device : N) (commands : list Command)
| PFuture (f : Future).

(** Modelled from the spec: every object crossing the boundary carries a
    mutable integer use-count (class RefCounted is not part of the
    sources). *)
Record Object := { refCounter : Z; payload : Payload }.

(** [objects]: the live reference-counted objects, by address.
    [infos]: the [ISPCRTDeviceInfo] structs the caller owns, by address. *)
Record Store := {
  objects : gmap N Object;
  infos : gmap N ISPCRTDeviceInfo
}.

Definition set_objects (f : gmap N Object -> gmap N Object) (s : Store) : Store :=
  {| objects := f (objects s); infos := infos s |}.
Definition set_infos (f : gmap N ISPCRTDeviceInfo -> gmap N ISPCRTDeviceInfo) (s : Store) : Store :=
  {| objects := objects s; infos := f (infos s) |}.

(** ** Code inside a try block *)

(** How library code ends: it returns a value, it throws, or it reaches
    undefined behaviour ([UB]), after which nothing more is said: no
    handler runs. *)
Inductive res (A : Type) :=
| Ok (a : A)
| Throw (e : exn)
| UB.
Arguments Ok {A} a.
Arguments Throw {A} e.
Arguments UB {A}.

Definition B (A : Type) : Type := Store -> res A * Store.

Definition retB {A} (a : A) : B A := fun s => (Ok a, s).
Definition bindB {A C} (m : B A) (k : A -> B C) : B C :=
  fun s => match m s with
           | (Ok a, s') => k a s'
           | (Throw e, s') => (Throw e, s')
           | (UB, s') => (UB, s')
           end.
Definition throw {A} (e : exn) : B A := fun s => (Throw e, s).
Definition undefined {A} : B A := fun s => (UB, s).
Definition modify (f : Store -> Store) : B unit := fun s => (Ok tt, f s).

#[global] Instance B_ret : MRet B := @retB.
#[global] Instance B_bind : MBind B := fun A C k m => bindB m k.

(** [try { m } catch (...) { h }] *)
Definition try_catch_all {A} (m : B A) (h : B A) : B A :=
  fun s => match m s with
           | (Throw _, s') => h s'
           | r => r
           end.

(** ** The process state *)

(** What a caller-supplied error function does once called: it comes back
    to the library, or it ends the process. *)
Inductive Fate := comes_back | ends_process (status : Z).

Inductive ErrorFunc :=
| defaultErrorFcn
| callerErrorFcn (id : N) (fate : Fate).

Inductive cerr_item :=
| cerr_str (s : string)
| cerr_error (e : ISPCRTError)
| cerr_endl.

Record World := {
  g_errorFcn : option ErrorFunc;
  cerr : list cerr_item;
  errorCalls : list (ErrorFunc * ISPCRTError * string);
  store : Store
}.

(** How a call of an entry point ends for the C caller: it returns, a
    C++ exception escapes it ([Raised]), the process ends inside it
    ([Exited], from [exit]), or undefined behaviour was reached
    ([Fault]). *)
Inductive outcome (A : Type) :=
| Returned (a : A)
| Raised (e : exn)
| Exited (status : Z)
| Fault.
Arguments Returned {A} a.
Arguments Raised {A} e.
Arguments Exited {A} status.
Arguments Fault {A}.

Definition M (A : Type) : Type := World -> outcome A * World.

Definition retM {A} (a : A) : M A := fun w => (Returned a, w).
Definition bindM {A C} (m : M A) (k : A -> M C) : M C :=
  fun w => match m w with
           | (Returned a, w') => k a w'
           | (Raised e, w') => (Raised e, w')
           | (Exited z, w') => (Exited z, w')
           | (Fault, w') => (Fault, w')
           end.

#[global] Instance M_ret : MRet M := @retM.
#[global] Instance M_bind : MBind M := fun A C k m => bindM m k.

Definition with_store (s : Store) (w : World) : World :=
  {| g_errorFcn := g_errorFcn w; cerr := cerr w; errorCalls := errorCalls w; store := s |}.

(** Library code run from an entry point. *)
Definition liftB {A} (m : B A) : M A :=
  fun w => match m (store w) with
           | (Ok a, s) => (Returned a, with_store s w)
           | (Throw e, s) => (Raised e, with_store s w)
           | (UB, s) => (Fault, with_store s w)
           end.

(** ** Error reporting (ispcrt.cpp, lines 23-79) *)

(** [defaultErrorFcn]: writes the error to [std::cerr], then [exit(-1)]. *)
Definition defaultErrorFcn_body (e : ISPCRTError) (msg : string) : M unit :=
  fun w =>
    (Exited (-1),
     {| g_errorFcn := g_errorFcn w;
        cerr := cerr w ++ [cerr_str "ISPCRT Error ("; cerr_error e; cerr_str "): ";
                           cerr_str msg; cerr_endl];
        errorCalls := errorCalls w;
        store := store w |}).

(** A call through an [ISPCRTErrorFunc] pointer.  [errorCalls] keeps the
    list of the calls made, in order. *)
Definition call_ErrorFunc (f : ErrorFunc) (e : ISPCRTError) (msg : string) : M unit :=
  fun w =>
    let w1 := {| g_errorFcn := g_errorFcn w; cerr := cerr w;
                 errorCalls := errorCalls w ++ [(f, e, msg)];
                 store := store w |} in
    match f with
    | defaultErrorFcn => defaultErrorFcn_body e msg w1
    | callerErrorFcn _ comes_back => (Returned tt, w1)
    | callerErrorFcn _ (ends_process z) => (Exited z, w1)
    end.

Definition handleError (e : ISPCRTError) (msg : string) : M unit :=
  fun w =>
    match g_errorFcn w with
    | Some f => call_ErrorFunc f e msg w
    | None => (Returned tt, w)
    end.

(** The [catch] clauses, tried in the order they are written: what each
    hands to [handleError]. *)
Definition caught (e : exn) : ISPCRTError * string :=
  match e with
  | ispcrt_runtime_error code what => (code, what)
  | std_logic_error what => (ISPCRT_INVALID_OPERATION, what)
  | std_runtime_error what | std_exception what => (ISPCRT_UNKNOWN_ERROR, what)
  | foreign_exception => (ISPCRT_UNKNOWN_ERROR, "an unrecognized exception was caught"%string)
  end.

(** Every clause is [handleError(code, what); return a;]. *)
Definition catch_clauses {A} (a : A) (e : exn) : M A :=
  _ ← handleError (fst (caught e)) (snd (caught e)); mret a.

Definition ISPCRT_CATCH_END {A} (a : A) (body : M A) : M A :=
  fun w =>
    match body w with
    | (Raised e, w') => catch_clauses a e w'
    | r => r
    end.

Definition ISPCRT_CATCH_END_NO_RETURN (body : M unit) : M unit :=
  fun w =>
    match body w with
    | (Raised e, w') => catch_clauses tt e w'
    | r => r
    end.

(** The state the process starts in: [g_errorFcn = &defaultErrorFcn]. *)
Definition initial_world (s : Store) : World :=
  {| g_errorFcn := Some defaultErrorFcn; cerr := []; errorCalls := []; store := s |}.

Definition ispcrtSetErrorFunc (fcn : option ErrorFunc) : M unit :=
  fun w =>
    (Returned tt,
     {| g_errorFcn := fcn; cerr := cerr w; errorCalls := errorCalls w; store := store w |}).

(** ** Handles *)

(** [referenceFromHandle] casts the handle and dereferences it.  Using a
    handle that designates no live object, or an object of another class
    than the one asked for, is undefined behaviour. *)
Definition referenceFromHandle (h : N) : B Object :=
  fun s => match objects s !! h with
           | Some o => (Ok o, s)
           | None => (UB, s)
           end.

Definition referenceFromHandle_Device (h : N) : B (BackendKind * N) :=
  o ← referenceFromHandle h;
  match payload o with PDevice k i => mret (k, i) | _ => undefined end.

Definition referenceFromHandle_Context (h : N) : B (BackendKind * N) :=
  o ← referenceFromHandle h;
  match payload o with PContext k n => mret (k, n) | _ => undefined end.

Definition referenceFromHandle_MemoryView (h : N) : B MemoryView :=
  o ← referenceFromHandle h;
  match payload o with PMemoryView mv => mret mv | _ => undefined end.

Definition referenceFromHandle_Module (h : N) : B unit :=
  o ← referenceFromHandle h;
  match payload o with PModule _ _ => mret tt | _ => undefined end.

Definition referenceFromHandle_Kernel (h : N) : B unit :=
  o ← referenceFromHandle h;
  match payload o with PKernel _ _ _ => mret tt | _ => undefined end.

Definition referenceFromHandle_TaskQueue (h : N) : B (list Command) :=
  o ← referenceFromHandle h;
  match payload o with PTaskQueue _ cmds => mret cmds | _ => undefined end.

Definition referenceFromHandle_Future (h : N) : B Future :=
  o ← referenceFromHandle h;
  match payload o with PFuture f => mret f | _ => undefined end.

(** Modelled from the spec: a context's device type is the backend kind it
    is bound to (never AUTO), and its native handle is an attribute. *)
Definition getDeviceType (c : BackendKind * N) : ISPCRTDeviceType :=
  match fst c with
  | CPU => ISPCRT_DEVICE_TYPE_CPU
  | GPU => ISPCRT_DEVICE_TYPE_GPU
  end.
Definition contextNativeHandle (c : BackendKind * N) : N := snd c.

(** ** Reference counting *)

(** Modelled from the spec: class RefCounted (absent from the sources).
    The use-count is initialized to 1 at creation; [refInc] increments it;
    [refDec] decrements it and destroys the object when it reaches zero;
    [useCount] reads it.  [new_ p] is the allocation part of a [new]
    expression (taken to succeed): the object gets an unused non-null
    address. *)
Definition new_ (p : Payload) : B N :=
  fun s =>
    let h := fresh ({[nullptr]} ∪ dom (objects s)) in
    (Ok h, set_objects (insert h {| refCounter := 1; payload := p |}) s).

Definition useCount (h : N) : B Z :=
  o ← referenceFromHandle h; mret (refCounter o).

Definition refInc (h : N) : B unit :=
  o ← referenceFromHandle h;
  modify (set_objects (insert h {| refCounter := refCounter o + 1; payload := payload o |})).

Definition refDec (h : N) : B unit :=
  o ← referenceFromHandle h;
  let c := refCounter o - 1 in
  if decide (c = 0)
  then modify (set_objects (delete h))
  else modify (set_objects (insert h {| refCounter := c; payload := payload o |})).

(** ** The backends

    The CPU and GPU implementations are outside the sources: the entry
    points reach them only through these operations.  A constructor
    yields what the new object holds, or throws; every other operation
    acts on the store. *)
Class Backend := {
  ISPCRT_BUILD_CPU : bool;
  ISPCRT_BUILD_GPU : bool;
  CPUDevice_ctor : B N;
  GPUDevice_ctor0 : B N;
  GPUDevice_ctor : N -> N -> N -> B N;
  CPUContext_ctor : B N;
  GPUContext_ctor0 : B N;
  GPUContext_ctor : N -> B N;
  cpu_deviceCount : B N;
  gpu_deviceCount : B N;
  cpu_deviceInfo : N -> B ISPCRTDeviceInfo;
  gpu_deviceInfo : N -> B ISPCRTDeviceInfo;
  Device_newMemoryView : N -> N -> N -> ISPCRTNewMemoryViewFlags -> B N;
  Context_newMemoryView : N -> N -> N -> ISPCRTNewMemoryViewFlags -> B N;
  Device_getMemAllocType : N -> N -> B ISPCRTAllocationType;
  Device_newModule : N -> string -> N -> B N;
  Device_dynamicLinkModules : N -> list N -> N -> B unit;
  Device_staticLinkModules : N -> list N -> N -> B N;
  Module_functionPtr : N -> string -> B N;
  Device_newKernel : N -> N -> string -> B N;
  Device_newTaskQueue : N -> B N;
  TaskQueue_barrier : N -> B unit;
  TaskQueue_copyToDevice : N -> N -> B unit;
  TaskQueue_copyToHost : N -> N -> B unit;
  TaskQueue_copyMemoryView : N -> N -> N -> N -> B unit;
  TaskQueue_launch : N -> N -> N -> N -> N -> N -> B N;
  TaskQueue_sync : N -> B unit;
  Device_platformNativeHandle : N -> B N;
  Device_deviceNativeHandle : N -> B N;
  Device_contextNativeHandle : N -> B N;
  TaskQueue_taskQueueNativeHandle : N -> B N
}.

(** ** The entry points (ispcrt.cpp, lines 85-510)

    For an entry point [f] written
    [f(...) ISPCRT_CATCH_BEGIN { body } ISPCRT_CATCH_END(a)],
    [f_try] is the body and [f] wraps it. *)
Section EntryPoints.
Context `{!Backend}.

(** *** Object lifetime *)

Definition ispcrtUseCount_try (h : N) : B Z := useCount h.
Definition ispcrtUseCount (h : N) : M Z :=
  ISPCRT_CATCH_END 0 (liftB (ispcrtUseCount_try h)).

Definition ispcrtRelease_try (h : N) : B unit := refDec h.
Definition ispcrtRelease (h : N) : M unit :=
  ISPCRT_CATCH_END_NO_RETURN (liftB (ispcrtRelease_try h)).

Definition ispcrtRetain_try (h : N) : B unit := refInc h.
Definition ispcrtRetain (h : N) : M unit :=
  ISPCRT_CATCH_END_NO_RETURN (liftB (ispcrtRetain_try h)).

(** *** Device initialization *)

(** [new T(args)]: the constructor runs; if it throws, no object exists. *)
Definition new_CPUDevice : B N := i ← CPUDevice_ctor; new_ (PDevice CPU i).
Definition new_GPUDevice0 : B N := i ← GPUDevice_ctor0; new_ (PDevice GPU i).
Definition new_GPUDevice (nativeContext d deviceIdx : N) : B N :=
  i ← GPUDevice_ctor nativeContext d deviceIdx; new_ (PDevice GPU i).
Definition new_CPUContext : B N := n ← CPUContext_ctor; new_ (PContext CPU n).
Definition new_GPUContext0 : B N := n ← GPUContext_ctor0; new_ (PContext GPU n).
Definition new_GPUContext (c : N) : B N := n ← GPUContext_ctor c; new_ (PContext GPU n).

(** [delete p] *)
Definition delete_ (p : N) : B unit := modify (set_objects (delete p)).

Definition getISPCRTDevice_try (type : ISPCRTDeviceType) (context d deviceIdx : N) : B N :=
  nativeContext ←
    (if decide (context = nullptr) then mret nullptr
     else c ← referenceFromHandle_Context context; mret (contextNativeHandle c));
  match type with
  | ISPCRT_DEVICE_TYPE_AUTO =>
      if ISPCRT_BUILD_GPU && ISPCRT_BUILD_CPU then
        (* on entry to the handler [device] is still the initial nullptr:
           the assignment in the try block never took place *)
        let device := nullptr in
        try_catch_all new_GPUDevice0
          (_ ← (if decide (device = nullptr) then mret tt else delete_ device);
           new_CPUDevice)
      else if ISPCRT_BUILD_CPU then new_CPUDevice
      else if ISPCRT_BUILD_GPU then new_GPUDevice0
      else mret nullptr
  | ISPCRT_DEVICE_TYPE_GPU =>
      if ISPCRT_BUILD_GPU then new_GPUDevice nativeContext d deviceIdx
      else throw (std_runtime_error "GPU support not enabled")
  | ISPCRT_DEVICE_TYPE_CPU =>
      if ISPCRT_BUILD_CPU then new_CPUDevice
      else throw (std_runtime_error "CPU support not enabled")
  | ISPCRT_DEVICE_TYPE_other _ =>
      throw (std_runtime_error "Unknown device type queried!")
  end.
Definition getISPCRTDevice (type : ISPCRTDeviceType) (context d deviceIdx : N) : M N :=
  ISPCRT_CATCH_END nullptr (liftB (getISPCRTDevice_try type context d deviceIdx)).

Definition ispcrtGetDevice (type : ISPCRTDeviceType) (deviceIdx : N) : M N :=
  getISPCRTDevice type nullptr nullptr deviceIdx.

(** No try block of their own: the context is dereferenced, and its
    device type read, before [getISPCRTDevice] is entered. *)
Definition ispcrtGetDeviceFromContext (context deviceIdx : N) : M N :=
  c ← liftB (referenceFromHandle_Context context);
  getISPCRTDevice (getDeviceType c) context nullptr deviceIdx.

Definition ispcrtGetDeviceFromNativeHandle (context d : N) : M N :=
  c ← liftB (referenceFromHandle_Context context);
  getISPCRTDevice (getDeviceType c) context d 0%N.

Definition ispcrtGetDeviceCount_try (type : ISPCRTDeviceType) : B N :=
  devices ←
    match type with
    | ISPCRT_DEVICE_TYPE_AUTO => throw (std_runtime_error "Device type must be specified")
    | ISPCRT_DEVICE_TYPE_GPU =>
        if ISPCRT_BUILD_GPU then gpu_deviceCount
        else throw (std_runtime_error "GPU support not enabled")
    | ISPCRT_DEVICE_TYPE_CPU =>
        if ISPCRT_BUILD_CPU then cpu_deviceCount
        else throw (std_runtime_error "CPU support not enabled")
    | ISPCRT_DEVICE_TYPE_other _ =>
        throw (std_runtime_error "Unknown device type queried!")
    end;
  mret devices.
Definition ispcrtGetDeviceCount (type : ISPCRTDeviceType) : M N :=
  ISPCRT_CATCH_END 0%N (liftB (ispcrtGetDeviceCount_try type)).

(** [*info = v]: a store into the caller's struct; storing through a
    pointer to no struct is undefined behaviour. *)
Definition write_info (info : N) (v : ISPCRTDeviceInfo) : B unit :=
  fun s => match infos s !! info with
           | Some _ => (Ok tt, set_infos (insert info v) s)
           | None => (UB, s)
           end.

Definition ispcrtGetDeviceInfo_try (type : ISPCRTDeviceType) (deviceIdx info : N) : B unit :=
  if decide (info = nullptr) then throw (std_runtime_error "info cannot be null!")
  else
    match type with
    | ISPCRT_DEVICE_TYPE_AUTO => throw (std_runtime_error "Device type must be specified")
    | ISPCRT_DEVICE_TYPE_GPU =>
        if ISPCRT_BUILD_GPU then v ← gpu_deviceInfo deviceIdx; write_info info v
        else throw (std_runtime_error "GPU support not enabled")
    | ISPCRT_DEVICE_TYPE_CPU =>
        if ISPCRT_BUILD_CPU then v ← cpu_deviceInfo deviceIdx; write_info info v
        else throw (std_runtime_error "CPU support not enabled")
    | ISPCRT_DEVICE_TYPE_other _ =>
        throw (std_runtime_error "Unknown device type queried!")
    end.
Definition ispcrtGetDeviceInfo (type : ISPCRTDeviceType) (deviceIdx info : N) : M unit :=
  ISPCRT_CATCH_END_NO_RETURN (liftB (ispcrtGetDeviceInfo_try type deviceIdx info)).

(** *** Context initialization *)

Definition getISPCRTContext_try (type : ISPCRTDeviceType) (c : N) : B N :=
  match type with
  | ISPCRT_DEVICE_TYPE_AUTO =>
      if ISPCRT_BUILD_GPU && ISPCRT_BUILD_CPU then
        let context := nullptr in
        try_catch_all new_GPUContext0
          (_ ← (if decide (context = nullptr) then mret tt else delete_ context);
           new_CPUContext)
      else if ISPCRT_BUILD_CPU then new_CPUContext
      else if ISPCRT_BUILD_GPU then new_GPUContext0
      else mret nullptr
  | ISPCRT_DEVICE_TYPE_GPU =>
      if ISPCRT_BUILD_GPU then new_GPUContext c
      else throw (std_runtime_error "GPU support not enabled")
  | ISPCRT_DEVICE_TYPE_CPU =>
      if ISPCRT_BUILD_CPU then new_CPUContext
      else throw (std_runtime_error "CPU support not enabled")
  | ISPCRT_DEVICE_TYPE_other _ =>
      throw (std_runtime_error "Unknown device type queried!")
  end.
Definition getISPCRTContext (type : ISPCRTDeviceType) (c : N) : M N :=
  ISPCRT_CATCH_END nullptr (liftB (getISPCRTContext_try type c)).

Definition ispcrtNewContext (type : ISPCRTDeviceType) : M N :=
  getISPCRTContext type nullptr.

Definition ispcrtGetContextFromNativeHandle (type : ISPCRTDeviceType) (c : N) : M N :=
  getISPCRTContext type c.

(** *** Memory views *)

(** [flags->allocType]: [flags] is a pointer to a struct of the caller;
    [None] is the null pointer. *)
Definition deref_flags (flags : option ISPCRTNewMemoryViewFlags) : B ISPCRTNewMemoryViewFlags :=
  match flags with
  | Some fl => mret fl
  | None => undefined
  end.

Definition ispcrtNewMemoryView_try (d appMemory numBytes : N)
    (flags : option ISPCRTNewMemoryViewFlags) : B N :=
  _ ← referenceFromHandle_Device d;
  fl ← deref_flags flags;
  if negb (bool_decide (allocType fl = ISPCRT_ALLOC_TYPE_SHARED))
     && negb (bool_decide (allocType fl = ISPCRT_ALLOC_TYPE_DEVICE))
  then throw (std_runtime_error "Unsupported memory allocation type requested!")
  else Device_newMemoryView d appMemory numBytes fl.
Definition ispcrtNewMemoryView (d appMemory numBytes : N)
    (flags : option ISPCRTNewMemoryViewFlags) : M N :=
  ISPCRT_CATCH_END nullptr (liftB (ispcrtNewMemoryView_try d appMemory numBytes flags)).

Definition ispcrtNewMemoryViewForContext_try (c appMemory numBytes : N)
    (flags : option ISPCRTNewMemoryViewFlags) : B N :=
  _ ← referenceFromHandle_Context c;
  fl ← deref_flags flags;
  if negb (bool_decide (allocType fl = ISPCRT_ALLOC_TYPE_SHARED))
  then throw (std_runtime_error "Only shared memory allocation is allowed for context!")
  else Context_newMemoryView c appMemory numBytes fl.
Definition ispcrtNewMemoryViewForContext (c appMemory numBytes : N)
    (flags : option ISPCRTNewMemoryViewFlags) : M N :=
  ISPCRT_CATCH_END nullptr (liftB (ispcrtNewMemoryViewForContext_try c appMemory numBytes flags)).

Definition ispcrtHostPtr_try (h : N) : B N :=
  mv ← referenceFromHandle_MemoryView h; mret (hostPtr mv).
Definition ispcrtHostPtr (h : N) : M N :=
  ISPCRT_CATCH_END nullptr (liftB (ispcrtHostPtr_try h)).

Definition ispcrtDevicePtr_try (h : N) : B N :=
  mv ← referenceFromHandle_MemoryView h; mret (devicePtr mv).
Definition ispcrtDevicePtr (h : N) : M N :=
  ISPCRT_CATCH_END nullptr (liftB (ispcrtDevicePtr_try h)).

Definition ispcrtSize_try (h : N) : B N :=
  mv ← referenceFromHandle_MemoryView h; mret (numBytes mv).
Definition ispcrtSize (h : N) : M N :=
  ISPCRT_CATCH_END 0%N (liftB (ispcrtSize_try h)).

Definition ispcrtGetMemoryViewAllocType_try (h : N) : B ISPCRTAllocationType :=
  mv ← referenceFromHandle_MemoryView h;
  mret (if isShared mv then ISPCRT_ALLOC_TYPE_SHARED else ISPCRT_ALLOC_TYPE_DEVICE).
Definition ispcrtGetMemoryViewAllocType (h : N) : M ISPCRTAllocationType :=
  ISPCRT_CATCH_END ISPCRT_ALLOC_TYPE_UNKNOWN (liftB (ispcrtGetMemoryViewAllocType_try h)).

Definition ispcrtGetMemoryAllocType_try (d memBuffer : N) : B ISPCRTAllocationType :=
  _ ← referenceFromHandle_Device d;
  Device_getMemAllocType d memBuffer.
Definition ispcrtGetMemoryAllocType (d memBuffer : N) : M ISPCRTAllocationType :=
  ISPCRT_CATCH_END ISPCRT_ALLOC_TYPE_UNKNOWN (liftB (ispcrtGetMemoryAllocType_try d memBuffer)).

Definition ispcrtSharedPtr_try (h : N) : B N :=
  mv ← referenceFromHandle_MemoryView h; mret (devicePtr mv).
Definition ispcrtSharedPtr (h : N) : M N :=
  ISPCRT_CATCH_END nullptr (liftB (ispcrtSharedPtr_try h)).

(** *** Modules *)

Definition ispcrtLoadModule_try (d : N) (moduleFile : string) (moduleOpts : N) : B N :=
  _ ← referenceFromHandle_Device d;
  module ← Device_newModule d moduleFile moduleOpts;
  mret module.
Definition ispcrtLoadModule (d : N) (moduleFile : string) (moduleOpts : N) : M N :=
  ISPCRT_CATCH_END nullptr (liftB (ispcrtLoadModule_try d moduleFile moduleOpts)).

Definition ispcrtDynamicLinkModules_try (d : N) (modules : list N) (numModules : N) : B unit :=
  _ ← referenceFromHandle_Device d;
  Device_dynamicLinkModules d modules numModules.
Definition ispcrtDynamicLinkModules (d : N) (modules : list N) (numModules : N) : M unit :=
  ISPCRT_CATCH_END tt (liftB (ispcrtDynamicLinkModules_try d modules numModules)).

Definition ispcrtStaticLinkModules_try (d : N) (modules : list N) (numModules : N) : B N :=
  _ ← referenceFromHandle_Device d;
  Device_staticLinkModules d modules numModules.
Definition ispcrtStaticLinkModules (d : N) (modules : list N) (numModules : N) : M N :=
  ISPCRT_CATCH_END nullptr (liftB (ispcrtStaticLinkModules_try d modules numModules)).

Definition ispcrtFunctionPtr_try (m : N) (name : string) : B N :=
  _ ← referenceFromHandle_Module m;
  Module_functionPtr m name.
Definition ispcrtFunctionPtr (m : N) (name : string) : M N :=
  ISPCRT_CATCH_END nullptr (liftB (ispcrtFunctionPtr_try m name)).

Definition ispcrtNewKernel_try (d m : N) (name : string) : B N :=
  _ ← referenceFromHandle_Device d;
  _ ← referenceFromHandle_Module m;
  Device_newKernel d m name.
Definition ispcrtNewKernel (d m : N) (name : string) : M N :=
  ISPCRT_CATCH_END nullptr (liftB (ispcrtNewKernel_try d m name)).

(** *** Task queues *)

Definition ispcrtNewTaskQueue_try (d : N) : B N :=
  _ ← referenceFromHandle_Device d;
  Device_newTaskQueue d.
Definition ispcrtNewTaskQueue (d : N) : M N :=
  ISPCRT_CATCH_END nullptr (liftB (ispcrtNewTaskQueue_try d)).

Definition ispcrtDeviceBarrier_try (q : N) : B unit :=
  _ ← referenceFromHandle_TaskQueue q;
  TaskQueue_barrier q.
Definition ispcrtDeviceBarrier (q : N) : M unit :=
  ISPCRT_CATCH_END_NO_RETURN (liftB (ispcrtDeviceBarrier_try q)).

Definition ispcrtCopyToDevice_try (q mv : N) : B unit :=
  _ ← referenceFromHandle_TaskQueue q;
  _ ← referenceFromHandle_MemoryView mv;
  TaskQueue_copyToDevice q mv.
Definition ispcrtCopyToDevice (q mv : N) : M unit :=
  ISPCRT_CATCH_END_NO_RETURN (liftB (ispcrtCopyToDevice_try q mv)).

Definition ispcrtCopyToHost_try (q mv : N) : B unit :=
  _ ← referenceFromHandle_TaskQueue q;
  _ ← referenceFromHandle_MemoryView mv;
  TaskQueue_copyToHost q mv.
Definition ispcrtCopyToHost (q mv : N) : M unit :=
  ISPCRT_CATCH_END_NO_RETURN (liftB (ispcrtCopyToHost_try q mv)).

Definition ispcrtCopyMemoryView_try (q mvDst mvSrc size : N) : B unit :=
  _ ← referenceFromHandle_TaskQueue q;
  viewDst ← referenceFromHandle_MemoryView mvDst;
  viewSrc ← referenceFromHandle_MemoryView mvSrc;
  if (numBytes viewDst <? size)%N
  then throw (std_runtime_error "Requested copy size is bigger than destination buffer size!")
  else if (numBytes viewSrc <? size)%N
  then throw (std_runtime_error "Requested copy size is bigger than source buffer size!")
  else TaskQueue_copyMemoryView q mvDst mvSrc size.
Definition ispcrtCopyMemoryView (q mvDst mvSrc size : N) : M unit :=
  ISPCRT_CATCH_END_NO_RETURN (liftB (ispcrtCopyMemoryView_try q mvDst mvSrc size)).

Definition ispcrtLaunch3D_try (q k p dim0 dim1 dim2 : N) : B N :=
  _ ← referenceFromHandle_TaskQueue q;
  _ ← referenceFromHandle_Kernel k;
  params ← (if decide (p = nullptr) then mret nullptr
            else _ ← referenceFromHandle_MemoryView p; mret p);
  TaskQueue_launch q k params dim0 dim1 dim2.
Definition ispcrtLaunch3D (q k p dim0 dim1 dim2 : N) : M N :=
  ISPCRT_CATCH_END nullptr (liftB (ispcrtLaunch3D_try q k p dim0 dim1 dim2)).

Definition ispcrtLaunch1D (q k p dim0 : N) : M N :=
  ISPCRT_CATCH_END nullptr (ispcrtLaunch3D q k p dim0 1%N 1%N).

Definition ispcrtLaunch2D (q k p dim0 dim1 : N) : M N :=
  ISPCRT_CATCH_END nullptr (ispcrtLaunch3D q k p dim0 dim1 1%N).

Definition ispcrtSync_try (q : N) : B unit :=
  _ ← referenceFromHandle_TaskQueue q;
  TaskQueue_sync q.
Definition ispcrtSync (q : N) : M unit :=
  ISPCRT_CATCH_END_NO_RETURN (liftB (ispcrtSync_try q)).

(** [(uint64_t)-1] *)
Definition minus_one_u64 : N := (2 ^ 64 - 1)%N.

Definition ispcrtFutureGetTimeNs_try (f : N) : B N :=
  if decide (f = nullptr) then mret minus_one_u64
  else
    future ← referenceFromHandle_Future f;
    if negb (valid future) then mret minus_one_u64
    else mret (time future).
Definition ispcrtFutureGetTimeNs (f : N) : M N :=
  ISPCRT_CATCH_END minus_one_u64 (liftB (ispcrtFutureGetTimeNs_try f)).

Definition ispcrtFutureIsValid_try (f : N) : B bool :=
  future ← referenceFromHandle_Future f;
  mret (valid future).
Definition ispcrtFutureIsValid (f : N) : M bool :=
  ISPCRT_CATCH_END false (liftB (ispcrtFutureIsValid_try f)).

(** *** Native handles *)

Definition ispcrtPlatformNativeHandle_try (d : N) : B N :=
  _ ← referenceFromHandle_Device d; Device_platformNativeHandle d.
Definition ispcrtPlatformNativeHandle (d : N) : M N :=
  ISPCRT_CATCH_END nullptr (liftB (ispcrtPlatformNativeHandle_try d)).

Definition ispcrtDeviceNativeHandle_try (d : N) : B N :=
  _ ← referenceFromHandle_Device d; Device_deviceNativeHandle d.
Definition ispcrtDeviceNativeHandle (d : N) : M N :=
  ISPCRT_CATCH_END nullptr (liftB (ispcrtDeviceNativeHandle_try d)).

Definition ispcrtDeviceContextNativeHandle_try (d : N) : B N :=
  _ ← referenceFromHandle_Device d; Device_contextNativeHandle d.
Definition ispcrtDeviceContextNativeHandle (d : N) : M N :=
  ISPCRT_CATCH_END nullptr (liftB (ispcrtDeviceContextNativeHandle_try d)).

Definition ispcrtContextNativeHandle_try (c : N) : B N :=
  context ← referenceFromHandle_Context c; mret (contextNativeHandle context).
Definition ispcrtContextNativeHandle (c : N) : M N :=
  ISPCRT_CATCH_END nullptr (liftB (ispcrtContextNativeHandle_try c)).

Definition ispcrtTaskQueueNativeHandle_try (q : N) : B N :=
  _ ← referenceFromHandle_TaskQueue q; TaskQueue_taskQueueNativeHandle q.
Definition ispcrtTaskQueueNativeHandle (q : N) : M N :=
  ISPCRT_CATCH_END nullptr (liftB (ispcrtTaskQueueNativeHandle_try q)).

End EntryPoints.

(** ** The entry points as one type

    [Call] lists the entry points with their arguments.  [exec] runs one; [failure_sentinel] is the value its
    [ISPCRT_CATCH_END] returns; [work] is the library code it runs. *)
Inductive Call :=
| CallSetErrorFunc (fcn : option ErrorFunc)
| CallUseCount (h : N)
| CallRelease (h : N)
| CallRetain (h : N)
| CallGetDevice (type : ISPCRTDeviceType) (deviceIdx : N)
| CallGetDeviceFromContext (context deviceIdx : N)
| CallGetDeviceFromNativeHandle (context d : N)
| CallGetDeviceCount (type : ISPCRTDeviceType)
| CallGetDeviceInfo (type : ISPCRTDeviceType) (deviceIdx info : N)
| CallNewContext (type : ISPCRTDeviceType)
| CallGetContextFromNativeHandle (type : ISPCRTDeviceType) (c : N)
| CallNewMemoryView (d appMemory numBytes : N) (flags : option ISPCRTNewMemoryViewFlags)
| CallNewMemoryViewForContext (c appMemory numBytes : N)
    (flags : option ISPCRTNewMemoryViewFlags)
| CallHostPtr (h : N)
| CallDevicePtr (h : N)
| CallSize (h : N)
| CallGetMemoryViewAllocType (h : N)
| CallGetMemoryAllocType (d memBuffer : N)
| CallSharedPtr (h : N)
| CallLoadModule (d : N) (moduleFile : string) (moduleOpts : N)
| CallDynamicLinkModules (d : N) (modules : list N) (numModules : N)
| CallStaticLinkModules (d : N) (modules : list N) (numModules : N)
| CallFunctionPtr (m : N) (name : string)
| CallNewKernel (d m : N) (name : string)
| CallNewTaskQueue (d : N)
| CallDeviceBarrier (q : N)
| CallCopyToDevice (q mv : N)
| CallCopyToHost (q mv : N)
| CallCopyMemoryView (q mvDst mvSrc size : N)
| CallLaunch1D (q k p dim0 : N)
| CallLaunch2D (q k p dim0 dim1 : N)
| CallLaunch3D (q k p dim0 dim1 dim2 : N)
| CallSync (q : N)
| CallFutureGetTimeNs (f : N)
| CallFutureIsValid (f : N)
| CallPlatformNativeHandle (d : N)
| CallDeviceNativeHandle (d : N)
| CallDeviceContextNativeHandle (d : N)
| CallContextNativeHandle (c : N)
| CallTaskQueueNativeHandle (q : N).

(** The C return type of each entry point. *)
Definition result_type (c : Call) : Type :=
  match c with
  | CallSetErrorFunc _ | CallRelease _ | CallRetain _ | CallGetDeviceInfo _ _ _
  | CallDynamicLinkModules _ _ _ | CallDeviceBarrier _ | CallCopyToDevice _ _
  | CallCopyToHost _ _ | CallCopyMemoryView _ _ _ _ | CallSync _ => unit
  | CallUseCount _ => Z
  | CallGetDevice _ _ | CallGetDeviceFromContext _ _ | CallGetDeviceFromNativeHandle _ _
  | CallGetDeviceCount _ | CallNewContext _ | CallGetContextFromNativeHandle _ _
  | CallNewMemoryView _ _ _ _ | CallNewMemoryViewForContext _ _ _ _ | CallHostPtr _
  | CallDevicePtr _ | CallSize _ | CallSharedPtr _ | CallLoadModule _ _ _
  | CallStaticLinkModules _ _ _ | CallFunctionPtr _ _ | CallNewKernel _ _ _
  | CallNewTaskQueue _ | CallLaunch1D _ _ _ _ | CallLaunch2D _ _ _ _ _
  | CallLaunch3D _ _ _ _ _ _ | CallFutureGetTimeNs _ | CallPlatformNativeHandle _
  | CallDeviceNativeHandle _ | CallDeviceContextNativeHandle _
  | CallContextNativeHandle _ | CallTaskQueueNativeHandle _ => N
  | CallGetMemoryViewAllocType _ | CallGetMemoryAllocType _ _ => ISPCRTAllocationType
  | CallFutureIsValid _ => bool
  end.

Section Dispatch.
Context `{!Backend}.

Definition exec (c : Call) : M (result_type c) :=
  match c return M (result_type c) with
  | CallSetErrorFunc fcn => ispcrtSetErrorFunc fcn
  | CallUseCount h => ispcrtUseCount h
  | CallRelease h => ispcrtRelease h
  | CallRetain h => ispcrtRetain h
  | CallGetDevice type i => ispcrtGetDevice type i
  | CallGetDeviceFromContext ctx i => ispcrtGetDeviceFromContext ctx i
  | CallGetDeviceFromNativeHandle ctx d => ispcrtGetDeviceFromNativeHandle ctx d
  | CallGetDeviceCount type => ispcrtGetDeviceCount type
  | CallGetDeviceInfo type i info => ispcrtGetDeviceInfo type i info
  | CallNewContext type => ispcrtNewContext type
  | CallGetContextFromNativeHandle type c => ispcrtGetContextFromNativeHandle type c
  | CallNewMemoryView d a n fl => ispcrtNewMemoryView d a n fl
  | CallNewMemoryViewForContext c a n fl => ispcrtNewMemoryViewForContext c a n fl
  | CallHostPtr h => ispcrtHostPtr h
  | CallDevicePtr h => ispcrtDevicePtr h
  | CallSize h => ispcrtSize h
  | CallGetMemoryViewAllocType h => ispcrtGetMemoryViewAllocType h
  | CallGetMemoryAllocType d p => ispcrtGetMemoryAllocType d p
  | CallSharedPtr h => ispcrtSharedPtr h
  | CallLoadModule d f o => ispcrtLoadModule d f o
  | CallDynamicLinkModules d ms n => ispcrtDynamicLinkModules d ms n
  | CallStaticLinkModules d ms n => ispcrtStaticLinkModules d ms n
  | CallFunctionPtr m name => ispcrtFunctionPtr m name
  | CallNewKernel d m name => ispcrtNewKernel d m name
  | CallNewTaskQueue d => ispcrtNewTaskQueue d
  | CallDeviceBarrier q => ispcrtDeviceBarrier q
  | CallCopyToDevice q mv => ispcrtCopyToDevice q mv
  | CallCopyToHost q mv => ispcrtCopyToHost q mv
  | CallCopyMemoryView q dst src size => ispcrtCopyMemoryView q dst src size
  | CallLaunch1D q k p d0 => ispcrtLaunch1D q k p d0
  | CallLaunch2D q k p d0 d1 => ispcrtLaunch2D q k p d0 d1
  | CallLaunch3D q k p d0 d1 d2 => ispcrtLaunch3D q k p d0 d1 d2
  | CallSync q => ispcrtSync q
  | CallFutureGetTimeNs f => ispcrtFutureGetTimeNs f
  | CallFutureIsValid f => ispcrtFutureIsValid f
  | CallPlatformNativeHandle d => ispcrtPlatformNativeHandle d
  | CallDeviceNativeHandle d => ispcrtDeviceNativeHandle d
  | CallDeviceContextNativeHandle d => ispcrtDeviceContextNativeHandle d
  | CallContextNativeHandle c => ispcrtContextNativeHandle c
  | CallTaskQueueNativeHandle q => ispcrtTaskQueueNativeHandle q
  end.

(** The argument of [ISPCRT_CATCH_END] at each entry point; nothing for
    the [void] ones. *)
Definition failure_sentinel (c : Call) : result_type c :=
  match c return result_type c with
  | CallSetErrorFunc _ | CallRelease _ | CallRetain _ | CallGetDeviceInfo _ _ _
  | CallDynamicLinkModules _ _ _ | CallDeviceBarrier _ | CallCopyToDevice _ _
  | CallCopyToHost _ _ | CallCopyMemoryView _ _ _ _ | CallSync _ => tt
  | CallUseCount _ => 0
  | CallGetDeviceCount _ | CallSize _ => 0%N
  | CallGetMemoryViewAllocType _ | CallGetMemoryAllocType _ _ => ISPCRT_ALLOC_TYPE_UNKNOWN
  | CallFutureGetTimeNs _ => minus_one_u64
  | CallFutureIsValid _ => false
  | _ => nullptr
  end.

(** The library code an entry point runs.  The two entry points that
    take a context read its device type first; the 1D and 2D launches run
    the code of the 3D one. *)
Definition work (c : Call) : B (result_type c) :=
  match c return B (result_type c) with
  | CallSetErrorFunc _ => mret tt
  | CallUseCount h => ispcrtUseCount_try h
  | CallRelease h => ispcrtRelease_try h
  | CallRetain h => ispcrtRetain_try h
  | CallGetDevice type i => getISPCRTDevice_try type nullptr nullptr i
  | CallGetDeviceFromContext ctx i =>
      c ← referenceFromHandle_Context ctx;
      getISPCRTDevice_try (getDeviceType c) ctx nullptr i
  | CallGetDeviceFromNativeHandle ctx d =>
      c ← referenceFromHandle_Context ctx;
      getISPCRTDevice_try (getDeviceType c) ctx d 0%N
  | CallGetDeviceCount type => ispcrtGetDeviceCount_try type
  | CallGetDeviceInfo type i info => ispcrtGetDeviceInfo_try type i info
  | CallNewContext type => getISPCRTContext_try type nullptr
  | CallGetContextFromNativeHandle type c => getISPCRTContext_try type c
  | CallNewMemoryView d a n fl => ispcrtNewMemoryView_try d a n fl
  | CallNewMemoryViewForContext c a n fl => ispcrtNewMemoryViewForContext_try c a n fl
  | CallHostPtr h => ispcrtHostPtr_try h
  | CallDevicePtr h => ispcrtDevicePtr_try h
  | CallSize h => ispcrtSize_try h
  | CallGetMemoryViewAllocType h => ispcrtGetMemoryViewAllocType_try h
  | CallGetMemoryAllocType d p => ispcrtGetMemoryAllocType_try d p
  | CallSharedPtr h => ispcrtSharedPtr_try h
  | CallLoadModule d f o => ispcrtLoadModule_try d f o
  | CallDynamicLinkModules d ms n => ispcrtDynamicLinkModules_try d ms n
  | CallStaticLinkModules d ms n => ispcrtStaticLinkModules_try d ms n
  | CallFunctionPtr m name => ispcrtFunctionPtr_try m name
  | CallNewKernel d m name => ispcrtNewKernel_try d m name
  | CallNewTaskQueue d => ispcrtNewTaskQueue_try d
  | CallDeviceBarrier q => ispcrtDeviceBarrier_try q
  | CallCopyToDevice q mv => ispcrtCopyToDevice_try q mv
  | CallCopyToHost q mv => ispcrtCopyToHost_try q mv
  | CallCopyMemoryView q dst src size => ispcrtCopyMemoryView_try q dst src size
  | CallLaunch1D q k p d0 => ispcrtLaunch3D_try q k p d0 1%N 1%N
  | CallLaunch2D q k p d0 d1 => ispcrtLaunch3D_try q k p d0 d1 1%N
  | CallLaunch3D q k p d0 d1 d2 => ispcrtLaunch3D_try q k p d0 d1 d2
  | CallSync q => ispcrtSync_try q
  | CallFutureGetTimeNs f => ispcrtFutureGetTimeNs_try f
  | CallFutureIsValid f => ispcrtFutureIsValid_try f
  | CallPlatformNativeHandle d => ispcrtPlatformNativeHandle_try d
  | CallDeviceNativeHandle d => ispcrtDeviceNativeHandle_try d
  | CallDeviceContextNativeHandle d => ispcrtDeviceContextNativeHandle_try d
  | CallContextNativeHandle c => ispcrtContextNativeHandle_try c
  | CallTaskQueueNativeHandle q => ispcrtTaskQueueNativeHandle_try q
  end.

End Dispatch.

(** ** A small backend to run the entry points on

    Its GPU constructors throw when no GPU is present; its task queue
    appends each submitted command to the queue's command stream. *)
Module Sim.

Definition enqueue (q : N) (cmd : Command) : B unit :=
  o ← referenceFromHandle q;
  match payload o with
  | PTaskQueue d cmds =>
      modify (set_objects (insert q {| refCounter := refCounter o;
                                       payload := PTaskQueue d (cmds ++ [cmd]) |}))
  | _ => undefined
  end.

Definition need_gpu {A} (present : bool) (m : B A) : B A :=
  if present then m else throw (std_runtime_error "no GPU device found").

Definition deviceInfo (count deviceIdx : N) : B ISPCRTDeviceInfo :=
  if (deviceIdx <? count)%N then mret {| vendorId := 0%N; deviceId := deviceIdx |}
  else throw (std_runtime_error "Invalid device number").

Definition newMemoryView (appMemory numBytes : N) (fl : ISPCRTNewMemoryViewFlags) : B N :=
  new_ (PMemoryView {| hostPtr := appMemory; devicePtr := appMemory; numBytes := numBytes;
                       isShared := bool_decide (allocType fl = ISPCRT_ALLOC_TYPE_SHARED) |}).

Definition backend (cpu gpu present : bool) : Backend := {|
  ISPCRT_BUILD_CPU := cpu;
  ISPCRT_BUILD_GPU := gpu;
  CPUDevice_ctor := mret 0%N;
  GPUDevice_ctor0 := need_gpu present (mret 0%N);
  GPUDevice_ctor := fun _ _ deviceIdx => need_gpu present (mret deviceIdx);
  CPUContext_ctor := mret nullptr;
  GPUContext_ctor0 := need_gpu present (mret nullptr);
  GPUContext_ctor := fun c => need_gpu present (mret c);
  cpu_deviceCount := mret 1%N;
  gpu_deviceCount := mret (if present then 1%N else 0%N);
  cpu_deviceInfo := deviceInfo 1%N;
  gpu_deviceInfo := deviceInfo (if present then 1%N else 0%N);
  Device_newMemoryView := fun _ => newMemoryView;
  Context_newMemoryView := fun _ => newMemoryView;
  Device_getMemAllocType := fun _ _ => mret ISPCRT_ALLOC_TYPE_UNKNOWN;
  Device_newModule := fun d file _ => new_ (PModule d file);
  Device_dynamicLinkModules := fun _ _ _ => mret tt;
  Device_staticLinkModules := fun d _ _ => new_ (PModule d "");
  Module_functionPtr := fun _ _ => mret nullptr;
  Device_newKernel := fun d m name => new_ (PKernel d m name);
  Device_newTaskQueue := fun d => new_ (PTaskQueue d []);
  TaskQueue_barrier := fun q => enqueue q CmdBarrier;
  TaskQueue_copyToDevice := fun q mv => enqueue q (CmdCopyToDevice mv);
  TaskQueue_copyToHost := fun q mv => enqueue q (CmdCopyToHost mv);
  TaskQueue_copyMemoryView := fun q dst src size => enqueue q (CmdCopyMemoryView dst src size);
  TaskQueue_launch := fun q k p d0 d1 d2 =>
    _ ← enqueue q (CmdLaunch k p d0 d1 d2);
    new_ (PFuture {| valid := false; time := 0%N |});
  TaskQueue_sync := fun _ => mret tt;
  Device_platformNativeHandle := fun _ => mret nullptr;
  Device_deviceNativeHandle := fun _ => mret nullptr;
  Device_contextNativeHandle := fun _ => mret nullptr;
  TaskQueue_taskQueueNativeHandle := fun _ => mret nullptr
|}.

Definition empty_store : Store := {| objects := ∅; infos := ∅ |}.

(** A process that has registered error function number 1, which comes
    back to the library. *)
Definition handler : ErrorFunc := callerErrorFcn 1 comes_back.
Definition world (s : Store) : World :=
  {| g_errorFcn := Some handler; cerr := []; errorCalls := []; store := s |}.

(** A device (1), a queue on it (2), memory views of 4 and 8 bytes (3, 4),
    a context (5), a future that is not valid yet (6), a module (7) and a
    kernel (8); the caller owns one info struct, at address 512. *)
Definition store1 : Store :=
  {| objects :=
       <[1%N := {| refCounter := 1; payload := PDevice CPU 0 |}]>
       (<[2%N := {| refCounter := 1; payload := PTaskQueue 1 [] |}]>
       (<[3%N := {| refCounter := 1;
                    payload := PMemoryView {| hostPtr := 64; devicePtr := 128;
                                              numBytes := 4; isShared := false |} |}]>
       (<[4%N := {| refCounter := 1;
                    payload := PMemoryView {| hostPtr := 256; devicePtr := 256;
                                              numBytes := 8; isShared := true |} |}]>
       (<[5%N := {| refCounter := 1; payload := PContext CPU 0 |}]>
       (<[6%N := {| refCounter := 1; payload := PFuture {| valid := false; time := 0 |} |}]>
       (<[7%N := {| refCounter := 1; payload := PModule 1 "kernels.so" |}]>
       (<[8%N := {| refCounter := 1; payload := PKernel 1 7 "saxpy" |}]>
        ∅)))))));
     infos := <[512%N := {| vendorId := 7; deviceId := 7 |}]> ∅ |}.

End Sim.

(** ** A second setting: no device can be constructed

    The small backend with both backends in the build, no GPU present,
    and a CPU device constructor that throws as well; and a store with a
    GPU context (1) and a future that has completed (2). *)
Module Sim2.

Definition backend : Backend :=
  let b := Sim.backend true true false in {|
  ISPCRT_BUILD_CPU := true;
  ISPCRT_BUILD_GPU := true;
  CPUDevice_ctor := throw (std_logic_error "no CPU device either");
  GPUDevice_ctor0 := @GPUDevice_ctor0 b;
  GPUDevice_ctor := @GPUDevice_ctor b;
  CPUContext_ctor := @CPUContext_ctor b;
  GPUContext_ctor0 := @GPUContext_ctor0 b;
  GPUContext_ctor := @GPUContext_ctor b;
  cpu_deviceCount := @cpu_deviceCount b;
  gpu_deviceCount := @gpu_deviceCount b;
  cpu_deviceInfo := @cpu_deviceInfo b;
  gpu_deviceInfo := @gpu_deviceInfo b;
  Device_newMemoryView := @Device_newMemoryView b;
  Context_newMemoryView := @Context_newMemoryView b;
  Device_getMemAllocType := @Device_getMemAllocType b;
  Device_newModule := @Device_newModule b;
  Device_dynamicLinkModules := @Device_dynamicLinkModules b;
  Device_staticLinkModules := @Device_staticLinkModules b;
  Module_functionPtr := @Module_functionPtr b;
  Device_newKernel := @Device_newKernel b;
  Device_newTaskQueue := @Device_newTaskQueue b;
  TaskQueue_barrier := @TaskQueue_barrier b;
  TaskQueue_copyToDevice := @TaskQueue_copyToDevice b;
  TaskQueue_copyToHost := @TaskQueue_copyToHost b;
  TaskQueue_copyMemoryView := @TaskQueue_copyMemoryView b;
  TaskQueue_launch := @TaskQueue_launch b;
  TaskQueue_sync := @TaskQueue_sync b;
  Device_platformNativeHandle := @Device_platformNativeHandle b;
  Device_deviceNativeHandle := @Device_deviceNativeHandle b;
  Device_contextNativeHandle := @Device_contextNativeHandle b;
  TaskQueue_taskQueueNativeHandle := @TaskQueue_taskQueueNativeHandle b
|}.

Definition store2 : Store :=
  {| objects :=
       <[1%N := {| refCounter := 1; payload := PContext GPU 4096 |}]>
       (<[2%N := {| refCounter := 1; payload := PFuture {| valid := true; time := 1500 |} |}]>
        ∅);
     infos := ∅ |}.

End Sim2.

(** * Properties *)

(** ** What a failed call looks like from outside *)

(** What the registered error function does once it has been called. *)
Definition fate (f : ErrorFunc) : Fate :=
  match f with
  | defaultErrorFcn => ends_process (-1)
  | callerErrorFcn _ ft => ft
  end.

(** How a call that reported a failure ends: it returns [a], unless the
    error function ended the process. *)
Definition after_report {A} (f : option ErrorFunc) (a : A) : outcome A :=
  match f with
  | None => Returned a
  | Some f => match fate f with
              | comes_back => Returned a
              | ends_process z => Exited z
              end
  end.

(** From [w] to [w'] the registered error function, if there is one, was
    called exactly once, with [code] and [msg]. *)
Definition reported_once (w w' : World) (code : ISPCRTError) (msg : string) : Prop :=
  match g_errorFcn w with
  | Some f => errorCalls w' = errorCalls w ++ [(f, code, msg)]
  | None => errorCalls w' = errorCalls w
  end.

(** The call with result [r], started in [w], failed: the failure
    ([code], [msg]) was reported once, the store was left as [s], and the
    call ended as [after_report] says, with sentinel [a]. *)
Definition failed_with {A} (r : outcome A * World) (w : World) (s : Store)
    (code : ISPCRTError) (msg : string) (a : A) : Prop :=
  fst r = after_report (g_errorFcn w) a
  /\ reported_once w (snd r) code msg
  /\ store (snd r) = s
  /\ g_errorFcn (snd r) = g_errorFcn w.

(** The object at address [h] has payload [p]. *)
Definition holds (s : Store) (h : N) (p : Payload) : Prop :=
  exists c, objects s !! h = Some {| refCounter := c; payload := p |}.

(** The two entry points that dereference their context, and read its
    device type, before any try block is entered. *)
Definition dereferences_outside_try (c : Call) : bool :=
  match c with
  | CallGetDeviceFromContext _ _ | CallGetDeviceFromNativeHandle _ _ => true
  | _ => false
  end.

(** The handle of an object that a call hands back: what the entry
    points that create objects return. *)
Definition returned_handle (c : Call) : outcome (result_type c) -> option N :=
  match c return outcome (result_type c) -> option N with
  | CallGetDevice _ _ | CallGetDeviceFromContext _ _ | CallGetDeviceFromNativeHandle _ _
  | CallNewContext _ | CallGetContextFromNativeHandle _ _
  | CallNewMemoryView _ _ _ _ | CallNewMemoryViewForContext _ _ _ _
  | CallLoadModule _ _ _ | CallStaticLinkModules _ _ _ | CallNewKernel _ _ _
  | CallNewTaskQueue _ | CallLaunch1D _ _ _ _ | CallLaunch2D _ _ _ _ _
  | CallLaunch3D _ _ _ _ _ _ =>
      fun o => match o with Returned h => Some h | _ => None end
  | _ => fun _ => None
  end.

(** The entry points whose objects are constructed in [ispcrt.cpp]
    itself, by a [new] expression: devices and contexts. *)
Definition constructs (c : Call) : bool :=
  match c with
  | CallGetDevice _ _ | CallGetDeviceFromContext _ _ | CallGetDeviceFromNativeHandle _ _
  | CallNewContext _ | CallGetContextFromNativeHandle _ _ => true
  | _ => false
  end.

(** For the other entry points that create objects, the backend
    operation that makes the object. *)
Definition factory `{!Backend} (c : Call) : option (B N) :=
  match c with
  | CallNewMemoryView d a n (Some fl) => Some (Device_newMemoryView d a n fl)
  | CallNewMemoryViewForContext c a n (Some fl) => Some (Context_newMemoryView c a n fl)
  | CallLoadModule d f o => Some (Device_newModule d f o)
  | CallStaticLinkModules d ms n => Some (Device_staticLinkModules d ms n)
  | CallNewKernel d m name => Some (Device_newKernel d m name)
  | CallNewTaskQueue d => Some (Device_newTaskQueue d)
  | CallLaunch1D q k p d0 => Some (TaskQueue_launch q k p d0 1%N 1%N)
  | CallLaunch2D q k p d0 d1 => Some (TaskQueue_launch q k p d0 d1 1%N)
  | CallLaunch3D q k p d0 d1 d2 => Some (TaskQueue_launch q k p d0 d1 d2)
  | _ => None
  end.

(** Modelled from the spec: what a backend operation that creates a
    reference-counted object does (the factories of the backends are not
    part of the sources).  Where [m] returns the non-null handle of an
    object that did not exist before, that object has use-count 1. *)
Definition creates_counted (m : B N) : Prop :=
  forall (s : Store) (h : N) (s' : Store),
    m s = (Ok h, s') ->
    h <> nullptr ->
    objects s !! h = None ->
    exists p, objects s' !! h = Some {| refCounter := 1; payload := p |}.

(** The message of the exception that the switches on the device type
    throw for a type that is out of the enumeration, or that names a
    backend left out of the build; [None] for a type they let through. *)
Definition rejection_message `{!Backend} (type : ISPCRTDeviceType) : option string :=
  match type with
  | ISPCRT_DEVICE_TYPE_CPU =>
      if ISPCRT_BUILD_CPU then None else Some "CPU support not enabled"%string
  | ISPCRT_DEVICE_TYPE_GPU =>
      if ISPCRT_BUILD_GPU then None else Some "GPU support not enabled"%string
  | ISPCRT_DEVICE_TYPE_AUTO => None
  | ISPCRT_DEVICE_TYPE_other _ => Some "Unknown device type queried!"%string
  end.

(** ** The monads and the catch clauses *)

Ltac unfold_monad :=
  unfold mbind, mret, B_bind, B_ret, M_bind, M_ret, bindB, retB, bindM, retM,
    throw, undefined, modify in *.

Lemma with_store_same (w : World) : with_store (store w) w = w.
Proof. destruct w; reflexivity. Qed.

Lemma with_store_twice (s1 s2 : Store) (w : World) :
  with_store s2 (with_store s1 w) = with_store s2 w.
Proof. reflexivity. Qed.

Lemma handleError_not_raised (code : ISPCRTError) (msg : string) (w : World) (e : exn) :
  fst (handleError code msg w) <> Raised e.
Proof.
  unfold handleError, call_ErrorFunc, defaultErrorFcn_body.
  destruct (g_errorFcn w) as [[|id [|z]]|]; simpl; discriminate.
Qed.

Lemma catch_clauses_not_raised {A} (a : A) (e : exn) (w : World) (e' : exn) :
  fst (catch_clauses a e w) <> Raised e'.
Proof.
  unfold catch_clauses. unfold_monad.
  pose proof (handleError_not_raised (fst (caught e)) (snd (caught e)) w) as Hh.
  destruct (handleError (fst (caught e)) (snd (caught e)) w) as [[u|e0|z|] w1];
    simpl in *; try discriminate.
  exfalso; exact (Hh e0 eq_refl).
Qed.

Lemma ISPCRT_CATCH_END_not_raised {A} (a : A) (body : M A) (w : World) (e : exn) :
  fst (ISPCRT_CATCH_END a body w) <> Raised e.
Proof.
  unfold ISPCRT_CATCH_END.
  destruct (body w) as [[r|e0|z|] w1]; simpl; try discriminate.
  apply catch_clauses_not_raised.
Qed.

(** A second try block around an entry point never sees an exception. *)
Lemma ISPCRT_CATCH_END_twice {A} (a a' : A) (body : M A) (w : World) :
  ISPCRT_CATCH_END a (ISPCRT_CATCH_END a' body) w = ISPCRT_CATCH_END a' body w.
Proof.
  unfold ISPCRT_CATCH_END at 1.
  pose proof (ISPCRT_CATCH_END_not_raised a' body w) as Hn.
  destruct (ISPCRT_CATCH_END a' body w) as [[r|e0|z|] w1]; try reflexivity.
  exfalso; exact (Hn e0 eq_refl).
Qed.

Lemma ISPCRT_CATCH_END_throw {A} (a : A) (m : B A) (w : World) (e : exn) (s' : Store) :
  m (store w) = (Throw e, s') ->
  ISPCRT_CATCH_END a (liftB m) w = catch_clauses a e (with_store s' w).
Proof. intros H. unfold ISPCRT_CATCH_END, liftB. rewrite H. reflexivity. Qed.

Lemma ISPCRT_CATCH_END_ok {A} (a : A) (m : B A) (w : World) (r : A) (s' : Store) :
  m (store w) = (Ok r, s') ->
  ISPCRT_CATCH_END a (liftB m) w = (Returned r, with_store s' w).
Proof. intros H. unfold ISPCRT_CATCH_END, liftB. rewrite H. reflexivity. Qed.

Lemma ISPCRT_CATCH_END_ub {A} (a : A) (m : B A) (w : World) (s' : Store) :
  m (store w) = (UB, s') ->
  ISPCRT_CATCH_END a (liftB m) w = (Fault, with_store s' w).
Proof. intros H. unfold ISPCRT_CATCH_END, liftB. rewrite H. reflexivity. Qed.

(** What the catch clauses do, seen from outside. *)
Lemma catch_clauses_failed_with {A} (a : A) (e : exn) (w : World) :
  failed_with (catch_clauses a e w) w (store w) (fst (caught e)) (snd (caught e)) a.
Proof.
  unfold failed_with, reported_once, after_report, catch_clauses, handleError,
    call_ErrorFunc, defaultErrorFcn_body.
  unfold_monad.
  destruct (g_errorFcn w) as [[|id [|z]]|] eqn:Hg; simpl; rewrite ?Hg; auto.
Qed.

Lemma failed_with_store {A} (r : outcome A * World) (w : World) (s' : Store)
    (code : ISPCRTError) (msg : string) (a : A) :
  failed_with r (with_store s' w) s' code msg a -> failed_with r w s' code msg a.
Proof. exact id. Qed.

(** ** Handles: dereferencing reads the store and never throws *)

Lemma referenceFromHandle_cases (h : N) (s : Store) :
  (exists o, objects s !! h = Some o /\ referenceFromHandle h s = (Ok o, s))
  \/ (objects s !! h = None /\ referenceFromHandle h s = (UB, s)).
Proof.
  unfold referenceFromHandle. destruct (objects s !! h) as [o|]; [left; eauto | right; auto].
Qed.

Lemma referenceFromHandle_Context_cases (h : N) (s : Store) :
  (exists c, referenceFromHandle_Context h s = (Ok c, s))
  \/ referenceFromHandle_Context h s = (UB, s).
Proof.
  unfold referenceFromHandle_Context. unfold_monad.
  destruct (referenceFromHandle_cases h s) as [(o & _ & ->)|[_ ->]]; [|right; reflexivity].
  destruct (payload o); eauto.
Qed.

Lemma holds_referenceFromHandle (s : Store) (h : N) (p : Payload) :
  holds s h p -> exists c, referenceFromHandle h s = (Ok {| refCounter := c; payload := p |}, s).
Proof. intros [c Hc]. exists c. unfold referenceFromHandle. rewrite Hc. reflexivity. Qed.

Section Boundary.
Context `{!Backend}.

(** The entry points that take a context: [getISPCRTDevice] is entered
    with the context's device type, if the handle designates a context. *)
Lemma ispcrtGetDeviceFromContext_eq (context deviceIdx : N) (w : World) :
  (exists c, referenceFromHandle_Context context (store w) = (Ok c, store w)
             /\ ispcrtGetDeviceFromContext context deviceIdx w
                = getISPCRTDevice (getDeviceType c) context nullptr deviceIdx w)
  \/ (referenceFromHandle_Context context (store w) = (UB, store w)
      /\ ispcrtGetDeviceFromContext context deviceIdx w = (Fault, w)).
Proof.
  destruct (referenceFromHandle_Context_cases context (store w)) as [[c Hc]|Hc];
    [left; exists c|right]; (split; [exact Hc|]);
    unfold ispcrtGetDeviceFromContext; unfold_monad; unfold liftB at 1;
    rewrite Hc, with_store_same; reflexivity.
Qed.

Lemma ispcrtGetDeviceFromNativeHandle_eq (context d : N) (w : World) :
  (exists c, referenceFromHandle_Context context (store w) = (Ok c, store w)
             /\ ispcrtGetDeviceFromNativeHandle context d w
                = getISPCRTDevice (getDeviceType c) context d 0%N w)
  \/ (referenceFromHandle_Context context (store w) = (UB, store w)
      /\ ispcrtGetDeviceFromNativeHandle context d w = (Fault, w)).
Proof.
  destruct (referenceFromHandle_Context_cases context (store w)) as [[c Hc]|Hc];
    [left; exists c|right]; (split; [exact Hc|]);
    unfold ispcrtGetDeviceFromNativeHandle; unfold_monad; unfold liftB at 1;
    rewrite Hc, with_store_same; reflexivity.
Qed.

(** Every entry point hands an exception that leaves its library code to
    the catch clauses, with its own sentinel. *)
Lemma exec_throw (c : Call) (w : World) (e : exn) (s' : Store) :
  work c (store w) = (Throw e, s') ->
  exec c w = catch_clauses (failure_sentinel c) e (with_store s' w).
Proof.
  destruct c; simpl; intros Hw;
    try (apply ISPCRT_CATCH_END_throw; exact Hw);
    try (unfold ispcrtLaunch1D, ispcrtLaunch2D, ispcrtLaunch3D;
         rewrite ISPCRT_CATCH_END_twice; apply ISPCRT_CATCH_END_throw; exact Hw).
  - discriminate Hw.
  - unfold_monad.
    destruct (ispcrtGetDeviceFromContext_eq context deviceIdx w) as [(c & Hc & ->)|(Hc & _)];
      rewrite Hc in Hw; [|discriminate Hw].
    apply ISPCRT_CATCH_END_throw; exact Hw.
  - unfold_monad.
    destruct (ispcrtGetDeviceFromNativeHandle_eq context d w) as [(c & Hc & ->)|(Hc & _)];
      rewrite Hc in Hw; [|discriminate Hw].
    apply ISPCRT_CATCH_END_throw; exact Hw.
Qed.

(** Apart from [ispcrtSetErrorFunc], an entry point is its library code
    under one set of catch clauses. *)
Lemma exec_catch (c : Call) (w : World) :
  (exists fcn, c = CallSetErrorFunc fcn)
  \/ exec c w = ISPCRT_CATCH_END (failure_sentinel c) (liftB (work c)) w.
Proof.
  destruct c; simpl;
    try (right; reflexivity);
    try (right; unfold ispcrtLaunch1D, ispcrtLaunch2D, ispcrtLaunch3D;
         apply ISPCRT_CATCH_END_twice).
  - left; eauto.
  - right.
    destruct (ispcrtGetDeviceFromContext_eq context deviceIdx w) as [(c & Hc & ->)|(Hc & ->)];
      unfold getISPCRTDevice, ISPCRT_CATCH_END, liftB; unfold_monad; rewrite Hc;
      rewrite ?with_store_same; reflexivity.
  - right.
    destruct (ispcrtGetDeviceFromNativeHandle_eq context d w) as [(c & Hc & ->)|(Hc & ->)];
      unfold getISPCRTDevice, ISPCRT_CATCH_END, liftB; unfold_monad; rewrite Hc;
      rewrite ?with_store_same; reflexivity.
Qed.

Lemma ISPCRT_CATCH_END_ok_observed {A} (a : A) (m : B A) (w : World) (r : A) (s' : Store) :
  m (store w) = (Ok r, s') ->
  fst (ISPCRT_CATCH_END a (liftB m) w) = Returned r
  /\ errorCalls (snd (ISPCRT_CATCH_END a (liftB m) w)) = errorCalls w
  /\ cerr (snd (ISPCRT_CATCH_END a (liftB m) w)) = cerr w
  /\ store (snd (ISPCRT_CATCH_END a (liftB m) w)) = s'.
Proof. intros Hm. rewrite (ISPCRT_CATCH_END_ok _ _ _ _ _ Hm). repeat split. Qed.

(** X2.  At every entry point, a call whose library code returns gives
    that result back to the caller, calls no error function and prints
    nothing: the sentinel and the error function are for failures only. *)
Lemma exec_ok (c : Call) (w : World) (r : result_type c) (s' : Store) :
  work c (store w) = (Ok r, s') ->
  fst (exec c w) = Returned r
  /\ errorCalls (snd (exec c w)) = errorCalls w
  /\ cerr (snd (exec c w)) = cerr w
  /\ store (snd (exec c w)) = s'.
Proof.
  destruct c; simpl; intros Hw;
    try (apply ISPCRT_CATCH_END_ok_observed; exact Hw);
    try (unfold ispcrtLaunch1D, ispcrtLaunch2D, ispcrtLaunch3D;
         rewrite ISPCRT_CATCH_END_twice; apply ISPCRT_CATCH_END_ok_observed; exact Hw).
  - injection Hw as <- <-. repeat split.
  - unfold_monad.
    destruct (ispcrtGetDeviceFromContext_eq context deviceIdx w) as [(c & Hc & ->)|(Hc & _)];
      rewrite Hc in Hw; [|discriminate Hw].
    apply ISPCRT_CATCH_END_ok_observed; exact Hw.
  - unfold_monad.
    destruct (ispcrtGetDeviceFromNativeHandle_eq context d w) as [(c & Hc & ->)|(Hc & _)];
      rewrite Hc in Hw; [|discriminate Hw].
    apply ISPCRT_CATCH_END_ok_observed; exact Hw.
Qed.

(** In the model no call ends with an exception in flight: the error
    functions return or end the process, and a context's device type is
    read without a call into the backend. *)
Lemma exec_never_raises (c : Call) (w : World) (e : exn) :
  fst (exec c w) <> Raised e.
Proof.
  destruct c; simpl; try apply ISPCRT_CATCH_END_not_raised; try discriminate.
  - destruct (ispcrtGetDeviceFromContext_eq context deviceIdx w) as [(c & _ & ->)|(_ & ->)];
      [apply ISPCRT_CATCH_END_not_raised | discriminate].
  - destruct (ispcrtGetDeviceFromNativeHandle_eq context d w) as [(c & _ & ->)|(_ & ->)];
      [apply ISPCRT_CATCH_END_not_raised | discriminate].
Qed.

End Boundary.

(** ** Error translation at the boundary *)

(** C1 (as amended).  For every entry point: when an exception leaves the
    library code the call runs (a GPU construction failure that the AUTO
    selection absorbs does not), it does not reach the caller; the
    registered error function, if there is one, is called exactly once,
    with the code and message the catch clauses pick; and the call returns
    the entry point's failure sentinel, unless the error function ended
    the process, as the default one does. *)
Theorem failure_reported_once `{!Backend} (c : Call) (w : World) (e : exn) (s' : Store) :
  work c (store w) = (Throw e, s') ->
  failed_with (exec c w) w s' (fst (caught e)) (snd (caught e)) (failure_sentinel c).
Proof.
  intros Hw. rewrite (exec_throw c w e s' Hw).
  apply failed_with_store, catch_clauses_failed_with.
Qed.

Lemma failure_reported_once_witness :
  failed_with
    (@exec (Sim.backend false true true)
       (CallGetDeviceCount ISPCRT_DEVICE_TYPE_CPU) (Sim.world Sim.store1))
    (Sim.world Sim.store1) Sim.store1
    ISPCRT_UNKNOWN_ERROR "CPU support not enabled" 0%N.
Proof.
  apply (@failure_reported_once (Sim.backend false true true)
           (CallGetDeviceCount ISPCRT_DEVICE_TYPE_CPU) (Sim.world Sim.store1)
           (std_runtime_error "CPU support not enabled") Sim.store1).
  reflexivity.
Defined.

(** C1 (as stated) fails on two inputs.  With both backends built and no
    GPU present, [ispcrtGetDevice(AUTO, 0)] raises a failure inside (the GPU
    constructor throws), yet the registered error function is not called
    and the call returns a device, not the null sentinel.  And in the
    state the process starts in, [ispcrtGetDeviceCount(AUTO)] calls the
    default error function, which ends the process: the call does not
    return its sentinel 0. *)
Lemma failure_not_always_reported :
  let b := Sim.backend true true false in
  let w := Sim.world Sim.empty_store in
  let r := @exec b (CallGetDevice ISPCRT_DEVICE_TYPE_AUTO 0%N) w in
  let r0 := @exec b (CallGetDeviceCount ISPCRT_DEVICE_TYPE_AUTO)
              (initial_world Sim.empty_store) in
  (@GPUDevice_ctor0 b (store w) = (Throw (std_runtime_error "no GPU device found"), store w)
   /\ g_errorFcn w = Some Sim.handler
   /\ errorCalls (snd r) = errorCalls w
   /\ fst r = Returned 1%N
   /\ fst r <> Returned (failure_sentinel (CallGetDevice ISPCRT_DEVICE_TYPE_AUTO 0%N)))
  /\ (errorCalls (snd r0) =
        [(defaultErrorFcn, ISPCRT_UNKNOWN_ERROR, "Device type must be specified"%string)]
      /\ fst r0 = Exited (-1)
      /\ fst r0 <> Returned (failure_sentinel (CallGetDeviceCount ISPCRT_DEVICE_TYPE_AUTO))).
Proof. vm_compute. repeat split; discriminate. Qed.

(** C2 (as amended).  When [size] exceeds the byte size of the destination
    view or of the source view, [ispcrtCopyMemoryView] fails with
    ISPCRT_UNKNOWN_ERROR (the exception is a [std::runtime_error]): the
    failure is reported once, the check comes before any call into the
    queue, and the store, with the queue's command stream, is unchanged. *)
Theorem copy_larger_than_view_rejected `{!Backend} (w : World) (q mvDst mvSrc size : N)
    (dev : N) (cmds : list Command) (viewDst viewSrc : MemoryView) :
  holds (store w) q (PTaskQueue dev cmds) ->
  holds (store w) mvDst (PMemoryView viewDst) ->
  holds (store w) mvSrc (PMemoryView viewSrc) ->
  (numBytes viewDst < size \/ numBytes viewSrc < size)%N ->
  let r := ispcrtCopyMemoryView q mvDst mvSrc size w in
  failed_with r w (store w) ISPCRT_UNKNOWN_ERROR
    (if (numBytes viewDst <? size)%N
     then "Requested copy size is bigger than destination buffer size!"
     else "Requested copy size is bigger than source buffer size!") tt
  /\ holds (store (snd r)) q (PTaskQueue dev cmds).
Proof.
  intros Hq Hd Hs Hsize r.
  assert (Hthrow : exists msg,
    msg = (if (numBytes viewDst <? size)%N
           then "Requested copy size is bigger than destination buffer size!"
           else "Requested copy size is bigger than source buffer size!")%string
    /\ ispcrtCopyMemoryView_try q mvDst mvSrc size (store w)
       = (Throw (std_runtime_error msg), store w)).
  { eexists; split; [reflexivity|].
    unfold ispcrtCopyMemoryView_try, referenceFromHandle_TaskQueue,
      referenceFromHandle_MemoryView.
    unfold_monad.
    destruct (holds_referenceFromHandle _ _ _ Hq) as [cq ->]; simpl.
    destruct (holds_referenceFromHandle _ _ _ Hd) as [cd ->]; simpl.
    destruct (holds_referenceFromHandle _ _ _ Hs) as [cs ->]; simpl.
    destruct (N.ltb_spec (numBytes viewDst) size) as [Hlt|Hge]; [reflexivity|].
    destruct (N.ltb_spec (numBytes viewSrc) size) as [Hlt'|Hge']; [reflexivity|].
    exfalso. destruct Hsize as [Hsize|Hsize]; lia. }
  destruct Hthrow as (msg & -> & Hthrow).
  assert (Hf : failed_with r w (store w) ISPCRT_UNKNOWN_ERROR
    (if (numBytes viewDst <? size)%N
     then "Requested copy size is bigger than destination buffer size!"
     else "Requested copy size is bigger than source buffer size!") tt).
  { subst r. unfold ispcrtCopyMemoryView.
    change (ISPCRT_CATCH_END_NO_RETURN ?m) with (ISPCRT_CATCH_END tt m).
    rewrite (ISPCRT_CATCH_END_throw _ _ _ _ _ Hthrow), with_store_same.
    apply (catch_clauses_failed_with tt (std_runtime_error _) w). }
  split; [exact Hf|].
  destruct Hf as (_ & _ & -> & _). exact Hq.
Qed.

Lemma copy_larger_than_view_rejected_witness :
  let r := @ispcrtCopyMemoryView (Sim.backend true true false) 2 3 4 6 (Sim.world Sim.store1) in
  failed_with r (Sim.world Sim.store1) Sim.store1 ISPCRT_UNKNOWN_ERROR
    "Requested copy size is bigger than destination buffer size!" tt
  /\ holds (store (snd r)) 2%N (PTaskQueue 1 []).
Proof.
  apply (@copy_larger_than_view_rejected (Sim.backend true true false)
           (Sim.world Sim.store1) 2 3 4 6 1 []
           {| hostPtr := 64; devicePtr := 128; numBytes := 4; isShared := false |}
           {| hostPtr := 256; devicePtr := 256; numBytes := 8; isShared := true |}).
  - exists 1. reflexivity.
  - exists 1. reflexivity.
  - exists 1. reflexivity.
  - left. reflexivity.
Defined.

(** C2 (as stated) fails: copying 6 bytes into a 4-byte view is reported
    to the error function as ISPCRT_UNKNOWN_ERROR; no call with
    ISPCRT_INVALID_OPERATION is made. *)
Lemma copy_larger_than_view_not_invalid_operation :
  let r := @ispcrtCopyMemoryView (Sim.backend true true false) 2 3 4 6 (Sim.world Sim.store1) in
  errorCalls (snd r) =
    [(Sim.handler, ISPCRT_UNKNOWN_ERROR,
      "Requested copy size is bigger than destination buffer size!"%string)]
  /\ ~ (exists f msg, In (f, ISPCRT_INVALID_OPERATION, msg) (errorCalls (snd r))).
Proof.
  split; [vm_compute; reflexivity|].
  intros (f & msg & Hin). vm_compute in Hin.
  destruct Hin as [Heq|[]]. discriminate Heq.
Qed.

(** A precondition check that throws before anything was done. *)
Lemma rejected_failed_with {A} (a : A) (m : B A) (w : World) (e : exn) :
  m (store w) = (Throw e, store w) ->
  failed_with (ISPCRT_CATCH_END a (liftB m) w) w (store w) (fst (caught e)) (snd (caught e)) a.
Proof.
  intros Hm. rewrite (ISPCRT_CATCH_END_throw _ _ _ _ _ Hm), with_store_same.
  apply catch_clauses_failed_with.
Qed.

(** C4 (as amended).  Whatever backends are built and whatever the device
    index, [ispcrtGetDeviceCount] and [ispcrtGetDeviceInfo] fail when the
    device type is AUTO, with ISPCRT_UNKNOWN_ERROR (the exception is a
    [std::runtime_error]); the failure is reported once, the count
    returned is zero and the store, with the caller's info struct, is
    unchanged.  A null [info] is rejected first, with its own message. *)
Theorem auto_rejected_by_device_queries `{!Backend} (w : World) (deviceIdx info : N) :
  failed_with (ispcrtGetDeviceCount ISPCRT_DEVICE_TYPE_AUTO w) w (store w)
    ISPCRT_UNKNOWN_ERROR "Device type must be specified" 0%N
  /\ failed_with (ispcrtGetDeviceInfo ISPCRT_DEVICE_TYPE_AUTO deviceIdx info w) w (store w)
       ISPCRT_UNKNOWN_ERROR
       (if decide (info = nullptr) then "info cannot be null!"
        else "Device type must be specified") tt
  /\ infos (store (snd (ispcrtGetDeviceInfo ISPCRT_DEVICE_TYPE_AUTO deviceIdx info w)))
     = infos (store w).
Proof.
  assert (Hinfo : failed_with (ispcrtGetDeviceInfo ISPCRT_DEVICE_TYPE_AUTO deviceIdx info w)
            w (store w) ISPCRT_UNKNOWN_ERROR
            (if decide (info = nullptr) then "info cannot be null!"
             else "Device type must be specified") tt).
  { unfold ispcrtGetDeviceInfo.
    change (ISPCRT_CATCH_END_NO_RETURN ?m) with (ISPCRT_CATCH_END tt m).
    unfold ispcrtGetDeviceInfo_try.
    destruct (decide (info = nullptr)) as [Hn|Hn];
      exact (rejected_failed_with tt _ w (std_runtime_error _) eq_refl). }
  split; [|split; [exact Hinfo|]].
  - exact (rejected_failed_with 0%N _ w
             (std_runtime_error "Device type must be specified") eq_refl).
  - destruct Hinfo as (_ & _ & -> & _). reflexivity.
Qed.

(** C4 (as stated) fails: the error code handed to the error function for
    an AUTO query is ISPCRT_UNKNOWN_ERROR; no call with
    ISPCRT_INVALID_OPERATION is made, by either query. *)
Lemma auto_query_not_invalid_operation :
  let b := Sim.backend true true true in
  let r1 := @ispcrtGetDeviceCount b ISPCRT_DEVICE_TYPE_AUTO (Sim.world Sim.store1) in
  let r2 := @ispcrtGetDeviceInfo b ISPCRT_DEVICE_TYPE_AUTO 0 512 (Sim.world Sim.store1) in
  errorCalls (snd r1) =
    [(Sim.handler, ISPCRT_UNKNOWN_ERROR, "Device type must be specified"%string)]
  /\ errorCalls (snd r2) =
    [(Sim.handler, ISPCRT_UNKNOWN_ERROR, "Device type must be specified"%string)]
  /\ ~ (exists f msg, In (f, ISPCRT_INVALID_OPERATION, msg)
                        (errorCalls (snd r1) ++ errorCalls (snd r2))).
Proof.
  split; [vm_compute; reflexivity|]. split; [vm_compute; reflexivity|].
  intros (f & msg & Hin). vm_compute in Hin.
  destruct Hin as [Heq|[Heq|[]]]; discriminate Heq.
Qed.

(** C8.  A memory view asked of a device with an allocation type other
    than SHARED or DEVICE is refused, and so is one asked of a context
    with an allocation type other than SHARED, each whatever else the
    store holds: the failure is reported once to the registered error
    function, the handle returned is null (unless that function ended the
    process), and the store is unchanged, so no view was created. *)
Theorem unsupported_alloc_type_rejected `{!Backend} (w : World) (appMemory numBytes : N) :
  (forall (d : N) (kd : BackendKind) (unit_index : N) (fd : ISPCRTNewMemoryViewFlags),
     holds (store w) d (PDevice kd unit_index) ->
     allocType fd <> ISPCRT_ALLOC_TYPE_SHARED ->
     allocType fd <> ISPCRT_ALLOC_TYPE_DEVICE ->
     failed_with (ispcrtNewMemoryView d appMemory numBytes (Some fd) w) w (store w)
       ISPCRT_UNKNOWN_ERROR "Unsupported memory allocation type requested!" nullptr)
  /\ (forall (c : N) (kc : BackendKind) (native : N) (fc : ISPCRTNewMemoryViewFlags),
        holds (store w) c (PContext kc native) ->
        allocType fc <> ISPCRT_ALLOC_TYPE_SHARED ->
        failed_with (ispcrtNewMemoryViewForContext c appMemory numBytes (Some fc) w) w (store w)
          ISPCRT_UNKNOWN_ERROR "Only shared memory allocation is allowed for context!" nullptr).
Proof.
  split.
  - intros d kd unit_index fd Hd Hs Hdv.
    apply (rejected_failed_with nullptr _ w
             (std_runtime_error "Unsupported memory allocation type requested!")).
    unfold ispcrtNewMemoryView_try, referenceFromHandle_Device. unfold_monad.
    destruct (holds_referenceFromHandle _ _ _ Hd) as [cd ->]; simpl.
    rewrite !bool_decide_eq_false_2 by assumption. reflexivity.
  - intros c kc native fc Hc Hcs.
    apply (rejected_failed_with nullptr _ w
             (std_runtime_error "Only shared memory allocation is allowed for context!")).
    unfold ispcrtNewMemoryViewForContext_try, referenceFromHandle_Context. unfold_monad.
    destruct (holds_referenceFromHandle _ _ _ Hc) as [cc ->]; simpl.
    rewrite !bool_decide_eq_false_2 by assumption. reflexivity.
Qed.

(** The device half in the store that [ispcrtGetDevice(CPU, 0)] leaves when
    run in an empty store (one device, no context); the context half in a
    store that holds a context and no device. *)
Lemma unsupported_alloc_type_rejected_witness :
  let b := Sim.backend true true true in
  let w1 := snd (@ispcrtGetDevice b ISPCRT_DEVICE_TYPE_CPU 0 (Sim.world Sim.empty_store)) in
  let w2 := Sim.world Sim2.store2 in
  (holds (store w1) 1%N (PDevice CPU 0)
   /\ (forall c kc native, ~ holds (store w1) c (PContext kc native))
   /\ failed_with
        (@ispcrtNewMemoryView b 1 64 16 (Some {| allocType := ISPCRT_ALLOC_TYPE_UNKNOWN |}) w1)
        w1 (store w1)
        ISPCRT_UNKNOWN_ERROR "Unsupported memory allocation type requested!" nullptr)
  /\ (holds (store w2) 1%N (PContext GPU 4096)
      /\ (forall d kd unit_index, ~ holds (store w2) d (PDevice kd unit_index))
      /\ failed_with
           (@ispcrtNewMemoryViewForContext b 1 64 16
              (Some {| allocType := ISPCRT_ALLOC_TYPE_DEVICE |}) w2)
           w2 (store w2)
           ISPCRT_UNKNOWN_ERROR "Only shared memory allocation is allowed for context!"
           nullptr).
Proof.
  intros b w1 w2. split; (split; [exists 1; reflexivity|]); split.
  - intros c kc native [cnt Hc].
    assert (Ho : objects (store w1)
                 = <[1%N := {| refCounter := 1; payload := PDevice CPU 0 |}]> ∅)
      by reflexivity.
    rewrite Ho in Hc.
    destruct (decide (c = 1%N)) as [-> | Hne]; [discriminate Hc|].
    rewrite lookup_insert_ne, lookup_empty in Hc by congruence. discriminate Hc.
  - apply (proj1 (@unsupported_alloc_type_rejected b w1 64 16) 1%N CPU 0%N
             {| allocType := ISPCRT_ALLOC_TYPE_UNKNOWN |}).
    + exists 1. reflexivity.
    + discriminate.
    + discriminate.
  - intros d kd unit_index [cnt Hd].
    destruct (decide (d = 1%N)) as [-> | Hne1]; [discriminate Hd|].
    destruct (decide (d = 2%N)) as [-> | Hne2]; [discriminate Hd|].
    unfold w2, Sim.world, Sim2.store2 in Hd. simpl in Hd.
    rewrite !lookup_insert_ne, lookup_empty in Hd by congruence. discriminate Hd.
  - apply (proj2 (@unsupported_alloc_type_rejected b w2 64 16) 1%N GPU 4096%N
             {| allocType := ISPCRT_ALLOC_TYPE_DEVICE |}).
    + exists 1. reflexivity.
    + discriminate.
Defined.

Lemma catch_clauses_no_handler {A} (a : A) (e : exn) (w : World) :
  g_errorFcn w = None -> catch_clauses a e w = (Returned a, w).
Proof.
  intros Hg. unfold catch_clauses, handleError. unfold_monad. rewrite Hg. reflexivity.
Qed.

(** C9.  The process starts with [defaultErrorFcn] registered, which
    prints the message to [std::cerr] and ends the process with status
    -1.  [ispcrtSetErrorFunc] replaces whatever is registered.  Once null
    is registered, a call whose library code throws calls no error
    function, prints nothing, and returns its failure sentinel. *)
Theorem error_function_registration `{!Backend} (s : Store) (code : ISPCRTError) (msg : string)
    (w : World) (fcn : option ErrorFunc) (c : Call) (e : exn) (s' : Store) :
  let w0 := snd (ispcrtSetErrorFunc None w) in
  work c (store w0) = (Throw e, s') ->
  (g_errorFcn (initial_world s) = Some defaultErrorFcn
   /\ handleError code msg (initial_world s) =
      (Exited (-1),
       {| g_errorFcn := Some defaultErrorFcn;
          cerr := [cerr_str "ISPCRT Error ("; cerr_error code; cerr_str "): ";
                   cerr_str msg; cerr_endl];
          errorCalls := [(defaultErrorFcn, code, msg)];
          store := s |}))
  /\ ispcrtSetErrorFunc fcn w =
     (Returned tt,
      {| g_errorFcn := fcn; cerr := cerr w; errorCalls := errorCalls w; store := store w |})
  /\ (g_errorFcn w0 = None
      /\ exec c w0 = (Returned (failure_sentinel c), with_store s' w0)
      /\ errorCalls (snd (exec c w0)) = errorCalls w
      /\ cerr (snd (exec c w0)) = cerr w).
Proof.
  intros w0 Hw. split; [split; reflexivity|]. split; [reflexivity|].
  assert (He : exec c w0 = (Returned (failure_sentinel c), with_store s' w0)).
  { rewrite (exec_throw c w0 e s' Hw). apply catch_clauses_no_handler. reflexivity. }
  rewrite He. repeat split.
Qed.

Lemma error_function_registration_witness :
  let b := Sim.backend true true true in
  let w0 := snd (ispcrtSetErrorFunc None (initial_world Sim.store1)) in
  let c := CallGetDeviceInfo ISPCRT_DEVICE_TYPE_CPU 3 512 in
  @exec b c w0 = (Returned tt, w0)
  /\ errorCalls (snd (@exec b c w0)) = []
  /\ cerr (snd (@exec b c w0)) = [].
Proof.
  pose proof (@error_function_registration (Sim.backend true true true) Sim.store1
                ISPCRT_UNKNOWN_ERROR "x" (initial_world Sim.store1) None
                (CallGetDeviceInfo ISPCRT_DEVICE_TYPE_CPU 3 512)
                (std_runtime_error "Invalid device number") Sim.store1 eq_refl) as Hthm.
  destruct Hthm as (_ & _ & _ & He & Hc & Hp).
  split; [exact He|]. split; [exact Hc | exact Hp].
Defined.

(** ** Device selection *)

Lemma fresh_handle_not_null (s : Store) : fresh ({[nullptr]} ∪ dom (objects s)) <> nullptr.
Proof.
  pose proof (is_fresh ({[nullptr]} ∪ dom (objects s))) as Hf.
  intros Heq. apply Hf. rewrite Heq. set_solver.
Qed.

Lemma fresh_handle_unused (s : Store) :
  objects s !! fresh ({[nullptr]} ∪ dom (objects s)) = None.
Proof.
  pose proof (is_fresh ({[nullptr]} ∪ dom (objects s))) as Hf.
  apply not_elem_of_dom. set_solver.
Qed.

(** C3.  With both backends built, an AUTO request tries the GPU
    constructor first.  When that throws, no GPU object exists, a CPU
    device is constructed and its handle returned, and the error function
    is not called: nothing is printed or reported for the GPU failure. *)
Theorem auto_falls_back_to_cpu `{!Backend} (w : World) (deviceIdx : N) (e : exn)
    (s1 s2 : Store) (i : N) :
  ISPCRT_BUILD_GPU = true ->
  ISPCRT_BUILD_CPU = true ->
  GPUDevice_ctor0 (store w) = (Throw e, s1) ->
  CPUDevice_ctor s1 = (Ok i, s2) ->
  exists (h : N) (w' : World),
    ispcrtGetDevice ISPCRT_DEVICE_TYPE_AUTO deviceIdx w = (Returned h, w')
    /\ h <> nullptr
    /\ objects s2 !! h = None
    /\ objects (store w') = <[h := {| refCounter := 1; payload := PDevice CPU i |}]> (objects s2)
    /\ errorCalls w' = errorCalls w
    /\ cerr w' = cerr w
    /\ g_errorFcn w' = g_errorFcn w.
Proof.
  intros Hgpu Hcpu Hg Hc.
  exists (fresh ({[nullptr]} ∪ dom (objects s2))).
  eexists. split.
  - unfold ispcrtGetDevice, getISPCRTDevice.
    apply ISPCRT_CATCH_END_ok.
    unfold getISPCRTDevice_try. rewrite Hgpu, Hcpu. simpl.
    unfold try_catch_all, new_GPUDevice0, new_CPUDevice. unfold_monad.
    rewrite Hg, Hc. unfold new_. reflexivity.
  - split; [apply fresh_handle_not_null|].
    split; [apply fresh_handle_unused|].
    repeat split.
Qed.

Lemma auto_falls_back_to_cpu_witness :
  exists (h : N) (w' : World),
    @ispcrtGetDevice (Sim.backend true true false) ISPCRT_DEVICE_TYPE_AUTO 0
      (Sim.world Sim.store1) = (Returned h, w')
    /\ h <> nullptr
    /\ objects Sim.store1 !! h = None
    /\ objects (store w') =
       <[h := {| refCounter := 1; payload := PDevice CPU 0 |}]> (objects Sim.store1)
    /\ errorCalls w' = []
    /\ cerr w' = []
    /\ g_errorFcn w' = Some Sim.handler.
Proof.
  apply (@auto_falls_back_to_cpu (Sim.backend true true false) (Sim.world Sim.store1) 0
           (std_runtime_error "no GPU device found") Sim.store1 Sim.store1 0).
  - reflexivity.
  - reflexivity.
  - reflexivity.
  - reflexivity.
Defined.

(** After the fallback of an AUTO request the CPU backend answers the
    device queries: [ispcrtGetDeviceInfo(CPU, 0, info)] fills the caller's
    struct and reports nothing. *)
Example device_info_after_fallback :
  let b := Sim.backend true true false in
  let w1 := snd (@ispcrtGetDevice b ISPCRT_DEVICE_TYPE_AUTO 0 (Sim.world Sim.store1)) in
  let r := @ispcrtGetDeviceInfo b ISPCRT_DEVICE_TYPE_CPU 0 512 w1 in
  fst r = Returned tt
  /\ infos (store (snd r)) !! 512%N = Some {| vendorId := 0; deviceId := 0 |}
  /\ errorCalls (snd r) = [].
Proof. vm_compute. repeat split. Qed.

(** ** Launches *)

(** C6.  [ispcrtLaunch1D(q,k,p,d0)] does exactly what
    [ispcrtLaunch3D(q,k,p,d0,1,1)] does, and [ispcrtLaunch2D(q,k,p,d0,d1)]
    what [ispcrtLaunch3D(q,k,p,d0,d1,1)] does: from any state, the same
    result (the future's handle, or the same failure) and the same final
    state, hence the same command enqueued and the same reports made. *)
Theorem launch_1D_2D_as_3D `{!Backend} (q k p dim0 dim1 : N) (w : World) :
  ispcrtLaunch1D q k p dim0 w = ispcrtLaunch3D q k p dim0 1%N 1%N w
  /\ ispcrtLaunch2D q k p dim0 dim1 w = ispcrtLaunch3D q k p dim0 dim1 1%N w.
Proof.
  unfold ispcrtLaunch1D, ispcrtLaunch2D, ispcrtLaunch3D.
  split; apply ISPCRT_CATCH_END_twice.
Qed.

(** On the small backend a 1D launch of kernel 8 on queue 2 returns the
    handle of a new future and appends one 3D launch command with the
    missing dimensions set to 1. *)
Example launch_1D_on_sim :
  let r := @ispcrtLaunch1D (Sim.backend true true false) 2 8 0 16 (Sim.world Sim.store1) in
  fst r = Returned 9%N
  /\ objects (store (snd r)) !! 2%N =
     Some {| refCounter := 1; payload := PTaskQueue 1 [CmdLaunch 8 0 16 1 1] |}
  /\ objects (store (snd r)) !! 9%N =
     Some {| refCounter := 1; payload := PFuture {| valid := false; time := 0 |} |}
  /\ errorCalls (snd r) = [].
Proof. vm_compute. repeat split. Qed.

(** ** Reference counts *)

Lemma useCount_lookup (s : Store) (h : N) (o : Object) :
  objects s !! h = Some o -> useCount h s = (Ok (refCounter o), s).
Proof.
  intros Ho. unfold useCount, referenceFromHandle. unfold_monad. rewrite Ho. reflexivity.
Qed.

Lemma ispcrtUseCount_lookup (w : World) (h : N) (o : Object) :
  objects (store w) !! h = Some o -> ispcrtUseCount h w = (Returned (refCounter o), w).
Proof.
  intros Ho. unfold ispcrtUseCount, ispcrtUseCount_try.
  rewrite (ISPCRT_CATCH_END_ok _ _ _ _ _ (useCount_lookup _ _ _ Ho)).
  rewrite with_store_same. reflexivity.
Qed.

Lemma ispcrtRetain_lookup (w : World) (h : N) (o : Object) :
  objects (store w) !! h = Some o ->
  ispcrtRetain h w =
    (Returned tt,
     with_store (set_objects (insert h {| refCounter := refCounter o + 1;
                                          payload := payload o |}) (store w)) w).
Proof.
  intros Ho. unfold ispcrtRetain, ispcrtRetain_try.
  change (ISPCRT_CATCH_END_NO_RETURN ?m) with (ISPCRT_CATCH_END tt m).
  apply ISPCRT_CATCH_END_ok.
  unfold refInc, referenceFromHandle. unfold_monad. rewrite Ho. reflexivity.
Qed.

Lemma ispcrtRelease_lookup (w : World) (h : N) (o : Object) :
  objects (store w) !! h = Some o ->
  refCounter o - 1 <> 0 ->
  ispcrtRelease h w =
    (Returned tt,
     with_store (set_objects (insert h {| refCounter := refCounter o - 1;
                                          payload := payload o |}) (store w)) w).
Proof.
  intros Ho Hc. unfold ispcrtRelease, ispcrtRelease_try.
  change (ISPCRT_CATCH_END_NO_RETURN ?m) with (ISPCRT_CATCH_END tt m).
  apply ISPCRT_CATCH_END_ok.
  unfold refDec, referenceFromHandle. unfold_monad. rewrite Ho.
  rewrite decide_False by exact Hc. reflexivity.
Qed.

Lemma retain_release_on_live (w : World) (h : N) (o : Object) :
  objects (store w) !! h = Some o ->
  0 < refCounter o ->
  ispcrtUseCount h w = (Returned (refCounter o), w)
  /\ (exists w1,
        ispcrtRetain h w = (Returned tt, w1)
        /\ ispcrtUseCount h w1 = (Returned (refCounter o + 1), w1)
        /\ ispcrtRelease h w1 = (Returned tt, w)
        /\ fst (ispcrtUseCount h (snd (ispcrtRelease h w1))) = Returned (refCounter o))
  /\ (1 < refCounter o ->
      exists w2,
        ispcrtRelease h w = (Returned tt, w2)
        /\ ispcrtUseCount h w2 = (Returned (refCounter o - 1), w2)).
Proof.
  intros Ho Hpos.
  split; [exact (ispcrtUseCount_lookup w h o Ho)|].
  split.
  - eexists. split; [exact (ispcrtRetain_lookup w h o Ho)|].
    set (o1 := {| refCounter := refCounter o + 1; payload := payload o |}).
    set (w1 := with_store (set_objects (insert h o1) (store w)) w).
    assert (Ho1 : objects (store w1) !! h = Some o1) by (simpl; apply lookup_insert_eq).
    assert (Hrel : ispcrtRelease h w1 = (Returned tt, w)).
    { rewrite (ispcrtRelease_lookup w1 h o1 Ho1) by (simpl; lia).
      f_equal. destruct w as [g ce ec [objs inf]]. unfold w1, with_store, set_objects; simpl.
      f_equal. f_equal. simpl in Ho.
      rewrite insert_insert_eq.
      replace (refCounter o + 1 - 1) with (refCounter o) by lia.
      destruct o as [c pl]; simpl. apply insert_id. exact Ho. }
    split; [exact (ispcrtUseCount_lookup w1 h o1 Ho1)|].
    split; [exact Hrel|].
    rewrite Hrel; simpl. rewrite (ispcrtUseCount_lookup w h o Ho). reflexivity.
  - intros Hgt. eexists. split; [apply (ispcrtRelease_lookup w h o Ho); lia|].
    set (o2 := {| refCounter := refCounter o - 1; payload := payload o |}).
    apply (ispcrtUseCount_lookup _ h o2). simpl. apply lookup_insert_eq.
Qed.

(** *** Creation *)

Lemma new_counted (p : Payload) (s : Store) :
  exists h s',
    new_ p s = (Ok h, s')
    /\ h <> nullptr
    /\ objects s !! h = None
    /\ objects s' !! h = Some {| refCounter := 1; payload := p |}.
Proof.
  eexists. eexists. split; [reflexivity|].
  split; [apply fresh_handle_not_null|].
  split; [apply fresh_handle_unused|].
  simpl. apply lookup_insert_eq.
Qed.

(** A [new] expression whose constructor returns. *)
Lemma new_expression_counted (ctor : B N) (P : N -> Payload) (s : Store) (h : N) (s' : Store) :
  (ctor ≫= (fun i => new_ (P i))) s = (Ok h, s') ->
  exists p, objects s' !! h = Some {| refCounter := 1; payload := p |}.
Proof.
  unfold_monad. destruct (ctor s) as [[i|e|] s1]; try discriminate.
  intros Hnew. destruct (new_counted (P i) s1) as (h1 & s2 & Hn & _ & _ & Hobj).
  rewrite Hn in Hnew. injection Hnew as <- <-. eauto.
Qed.

Lemma new_creates_counted (p : Payload) : creates_counted (new_ p).
Proof.
  intros s h s' Hnew _ _.
  destruct (new_counted p s) as (h1 & s2 & Hn & _ & _ & Hobj).
  rewrite Hn in Hnew. injection Hnew as <- <-. eauto.
Qed.

Lemma returned_handle_inv (c : Call) (r : result_type c) (h : N) :
  returned_handle c (Returned r) = Some h ->
  returned_handle c (Returned (failure_sentinel c)) = Some nullptr.
Proof. destruct c; simpl; intros Hr; try discriminate Hr; reflexivity. Qed.

Lemma returned_handle_not_returned (c : Call) (o : outcome (result_type c)) (h : N) :
  returned_handle c o = Some h -> exists r, o = Returned r.
Proof. destruct c; simpl; intros Hr; try discriminate Hr; destruct o; try discriminate Hr; eauto. Qed.

Section Creation.
Context `{!Backend}.

Lemma getISPCRTDevice_try_counted (type : ISPCRTDeviceType) (context d deviceIdx : N)
    (s : Store) (h : N) (s' : Store) :
  getISPCRTDevice_try type context d deviceIdx s = (Ok h, s') ->
  h <> nullptr ->
  exists p, objects s' !! h = Some {| refCounter := 1; payload := p |}.
Proof.
  intros Hw Hn. unfold getISPCRTDevice_try in Hw. unfold_monad.
  assert (Hpre : exists n,
    (if decide (context = nullptr) then retB nullptr
     else fun s0 => let (r, s1) := referenceFromHandle_Context context s0 in
                    match r with
                    | Ok a => retB (contextNativeHandle a) s1
                    | Throw e => (Throw e, s1)
                    | UB => (UB, s1)
                    end) s = (Ok n, s)
    \/ (if decide (context = nullptr) then retB nullptr
        else fun s0 => let (r, s1) := referenceFromHandle_Context context s0 in
                       match r with
                       | Ok a => retB (contextNativeHandle a) s1
                       | Throw e => (Throw e, s1)
                       | UB => (UB, s1)
                       end) s = (UB, s)).
  { destruct (decide (context = nullptr)); [exists nullptr; left; reflexivity|].
    destruct (referenceFromHandle_Context_cases context s) as [[c0 ->]| ->];
      [exists (contextNativeHandle c0); left | exists nullptr; right]; reflexivity. }
  unfold retB in *. destruct Hpre as [n [Hpre|Hpre]]; rewrite Hpre in Hw; [|discriminate Hw].
  destruct type.
  - destruct ISPCRT_BUILD_CPU; [|discriminate Hw].
    exact (new_expression_counted _ (PDevice CPU) _ _ _ Hw).
  - destruct ISPCRT_BUILD_GPU; [|discriminate Hw].
    exact (new_expression_counted _ (PDevice GPU) _ _ _ Hw).
  - destruct ISPCRT_BUILD_GPU, ISPCRT_BUILD_CPU; simpl in Hw.
    + unfold try_catch_all in Hw.
      destruct (new_GPUDevice0 s) as [[h0|e0|] s1] eqn:Hg; [| |discriminate Hw].
      * injection Hw as <- <-. exact (new_expression_counted _ (PDevice GPU) _ _ _ Hg).
      * exact (new_expression_counted _ (PDevice CPU) _ _ _ Hw).
    + exact (new_expression_counted _ (PDevice GPU) _ _ _ Hw).
    + exact (new_expression_counted _ (PDevice CPU) _ _ _ Hw).
    + injection Hw as <- <-. contradiction Hn; reflexivity.
  - discriminate Hw.
Qed.

Lemma getISPCRTContext_try_counted (type : ISPCRTDeviceType) (c : N)
    (s : Store) (h : N) (s' : Store) :
  getISPCRTContext_try type c s = (Ok h, s') ->
  h <> nullptr ->
  exists p, objects s' !! h = Some {| refCounter := 1; payload := p |}.
Proof.
  intros Hw Hn. unfold getISPCRTContext_try in Hw.
  destruct type.
  - destruct ISPCRT_BUILD_CPU; [|discriminate Hw].
    exact (new_expression_counted _ (PContext CPU) _ _ _ Hw).
  - destruct ISPCRT_BUILD_GPU; [|discriminate Hw].
    exact (new_expression_counted _ (PContext GPU) _ _ _ Hw).
  - destruct ISPCRT_BUILD_GPU, ISPCRT_BUILD_CPU; simpl in Hw.
    + unfold try_catch_all in Hw.
      destruct (new_GPUContext0 s) as [[h0|e0|] s1] eqn:Hg; [| |discriminate Hw].
      * injection Hw as <- <-. exact (new_expression_counted _ (PContext GPU) _ _ _ Hg).
      * exact (new_expression_counted _ (PContext CPU) _ _ _ Hw).
    + exact (new_expression_counted _ (PContext GPU) _ _ _ Hw).
    + exact (new_expression_counted _ (PContext CPU) _ _ _ Hw).
    + injection Hw as <- <-. contradiction Hn; reflexivity.
  - discriminate Hw.
Qed.

(** The entry points that construct their object themselves. *)
Lemma constructs_counted (c : Call) (s : Store) (r : result_type c) (s' : Store) (h : N) :
  constructs c = true ->
  work c s = (Ok r, s') ->
  returned_handle c (Returned r) = Some h ->
  h <> nullptr ->
  exists p, objects s' !! h = Some {| refCounter := 1; payload := p |}.
Proof.
  destruct c; simpl; intros Hc Hw Hr Hn; try discriminate Hc;
    injection Hr as ->.
  - exact (getISPCRTDevice_try_counted _ _ _ _ _ _ _ Hw Hn).
  - unfold_monad.
    destruct (referenceFromHandle_Context_cases context s) as [[c0 Hc0]|Hc0];
      rewrite Hc0 in Hw; [|discriminate Hw].
    exact (getISPCRTDevice_try_counted _ _ _ _ _ _ _ Hw Hn).
  - unfold_monad.
    destruct (referenceFromHandle_Context_cases context s) as [[c0 Hc0]|Hc0];
      rewrite Hc0 in Hw; [|discriminate Hw].
    exact (getISPCRTDevice_try_counted _ _ _ _ _ _ _ Hw Hn).
  - exact (getISPCRTContext_try_counted _ _ _ _ _ Hw Hn).
  - exact (getISPCRTContext_try_counted _ _ _ _ _ Hw Hn).
Qed.

Ltac read_handles :=
  unfold referenceFromHandle_Device, referenceFromHandle_Context,
    referenceFromHandle_MemoryView, referenceFromHandle_Module, referenceFromHandle_Kernel,
    referenceFromHandle_TaskQueue, deref_flags, referenceFromHandle;
  unfold_monad;
  repeat match goal with
         | |- context [objects ?s !! ?x] => destruct (objects s !! x) as [?o|]; simpl
         | |- context [match payload ?o with _ => _ end] => destruct (payload o); simpl
         | |- context [if ?b then _ else _] => destruct b; simpl
         end;
  subst; try (intros Hx; discriminate Hx); try (intros Hx; exact Hx).

(** At the other entry points that create objects, a call whose library
    code returns has run the backend's factory, in the store the call
    began in, and returns what the factory returned. *)
Lemma factory_runs (c : Call) (m : B N) (s : Store) (r : result_type c) (s' : Store) (h : N) :
  factory c = Some m ->
  returned_handle c (Returned r) = Some h ->
  work c s = (Ok r, s') ->
  m s = (Ok h, s').
Proof.
  destruct c; simpl; intros Hf Hr; try discriminate Hf;
    try (destruct flags; [|discriminate Hf]);
    injection Hf as <-; injection Hr as ->.
  - unfold ispcrtNewMemoryView_try. read_handles.
  - unfold ispcrtNewMemoryViewForContext_try. read_handles.
  - unfold ispcrtLoadModule_try. read_handles.
    destruct (Device_newModule d moduleFile moduleOpts s) as [[x|x|] s1]; intros Hx;
      try discriminate Hx; exact Hx.
  - unfold ispcrtStaticLinkModules_try. read_handles.
  - unfold ispcrtNewKernel_try. read_handles.
  - unfold ispcrtNewTaskQueue_try. read_handles.
  - unfold ispcrtLaunch3D_try. read_handles.
  - unfold ispcrtLaunch3D_try. read_handles.
  - unfold ispcrtLaunch3D_try. read_handles.
Qed.

(** From what the library code of a call leaves to what the caller sees. *)
Lemma created_has_count_one (c : Call) (w : World) (h : N) :
  (forall r s',
     work c (store w) = (Ok r, s') ->
     returned_handle c (Returned r) = Some h ->
     exists p, objects s' !! h = Some {| refCounter := 1; payload := p |}) ->
  returned_handle c (fst (exec c w)) = Some h ->
  h <> nullptr ->
  ispcrtUseCount h (snd (exec c w)) = (Returned 1, snd (exec c w)).
Proof.
  intros Hwork Hret Hn.
  destruct (exec_catch c w) as [[fcn ->]|Hc]; [discriminate Hret|].
  rewrite Hc in *.
  destruct (work c (store w)) as [[r|e|] s'] eqn:Hw.
  - rewrite (ISPCRT_CATCH_END_ok _ _ _ _ _ Hw) in *. simpl in Hret.
    destruct (Hwork r s' eq_refl Hret) as [p Hp].
    apply (ispcrtUseCount_lookup _ h {| refCounter := 1; payload := p |}). exact Hp.
  - rewrite (ISPCRT_CATCH_END_throw _ _ _ _ _ Hw) in Hret.
    destruct (catch_clauses_failed_with (failure_sentinel c) e (with_store s' w))
      as (Hout & _).
    rewrite Hout in Hret.
    destruct (returned_handle_not_returned _ _ _ Hret) as [r Hr].
    assert (Hs : after_report (g_errorFcn (with_store s' w)) (failure_sentinel c)
                 = Returned (failure_sentinel c)).
    { unfold after_report in *. destruct (g_errorFcn (with_store s' w)) as [f|];
        [destruct (fate f); [reflexivity | discriminate Hr] | reflexivity]. }
    rewrite Hs in Hret. rewrite (returned_handle_inv _ _ _ Hret) in Hret.
    injection Hret as <-. contradiction Hn; reflexivity.
  - rewrite (ISPCRT_CATCH_END_ub _ _ _ _ Hw) in Hret. simpl in Hret.
    destruct (returned_handle_not_returned _ _ _ Hret) as [r Hr]. discriminate Hr.
Qed.

End Creation.

(** C7.  On a live object with a positive use-count, [ispcrtRetain] adds
    one to what [ispcrtUseCount] returns, [ispcrtRelease] takes one off
    (the object stays while the count is not zero), and a retain followed
    by a release gives back the very state it started from, so the
    use-count is unchanged.  Right after its creation an object has
    use-count 1: in any store, the object a [new] expression allocates;
    the device or context that [ispcrtGetDevice],
    [ispcrtGetDeviceFromContext], [ispcrtGetDeviceFromNativeHandle],
    [ispcrtNewContext] or [ispcrtGetContextFromNativeHandle] returns,
    with any backend; and the memory view, module, kernel, task queue or
    future that the other creating entry points return, when the
    backend's factory creates it as a reference-counted object. *)
Theorem retain_release_use_count :
  (forall (w : World) (h : N) (o : Object),
     objects (store w) !! h = Some o ->
     0 < refCounter o ->
     ispcrtUseCount h w = (Returned (refCounter o), w)
     /\ (exists w1,
           ispcrtRetain h w = (Returned tt, w1)
           /\ ispcrtUseCount h w1 = (Returned (refCounter o + 1), w1)
           /\ ispcrtRelease h w1 = (Returned tt, w)
           /\ fst (ispcrtUseCount h (snd (ispcrtRelease h w1))) = Returned (refCounter o))
     /\ (1 < refCounter o ->
         exists w2,
           ispcrtRelease h w = (Returned tt, w2)
           /\ ispcrtUseCount h w2 = (Returned (refCounter o - 1), w2)))
  /\ (forall (w : World) (p : Payload),
        exists h' s',
          new_ p (store w) = (Ok h', s')
          /\ h' <> nullptr
          /\ objects (store w) !! h' = None
          /\ ispcrtUseCount h' (with_store s' w) = (Returned 1, with_store s' w))
  /\ (forall (b : Backend) (c : Call) (w : World) (h : N),
        constructs c = true ->
        returned_handle c (fst (exec c w)) = Some h ->
        h <> nullptr ->
        ispcrtUseCount h (snd (exec c w)) = (Returned 1, snd (exec c w)))
  /\ (forall (b : Backend) (c : Call) (m : B N) (w : World) (h : N),
        factory c = Some m ->
        creates_counted m ->
        returned_handle c (fst (exec c w)) = Some h ->
        h <> nullptr ->
        objects (store w) !! h = None ->
        ispcrtUseCount h (snd (exec c w)) = (Returned 1, snd (exec c w))).
Proof.
  split; [exact retain_release_on_live|]. split; [|split].
  - intros w p. destruct (new_counted p (store w)) as (h' & s' & Hn & Hnn & Hfresh & Hobj).
    exists h', s'. repeat split; try assumption.
    apply (ispcrtUseCount_lookup _ h' {| refCounter := 1; payload := p |}). exact Hobj.
  - intros b c w h Hc Hret Hn.
    apply created_has_count_one; [|exact Hret|exact Hn].
    intros r s' Hw Hr. exact (constructs_counted c _ r s' h Hc Hw Hr Hn).
  - intros b c m w h Hf Hm Hret Hn Hfresh.
    apply created_has_count_one; [|exact Hret|exact Hn].
    intros r s' Hw Hr.
    exact (Hm _ _ _ (factory_runs c m _ r s' h Hf Hr Hw) Hn Hfresh).
Qed.

(** A retain and a release on view 3; an object allocated in the empty
    store; the device that [ispcrtGetDevice(CPU, 0)] creates in the empty
    store; the task queue that [ispcrtNewTaskQueue] creates on device 1. *)
Lemma retain_release_use_count_witness :
  let b := Sim.backend true true true in
  let w := Sim.world Sim.store1 in
  let w0 := Sim.world Sim.empty_store in
  (ispcrtUseCount 3 w = (Returned 1, w)
   /\ (exists w1,
         ispcrtRetain 3 w = (Returned tt, w1)
         /\ ispcrtUseCount 3 w1 = (Returned 2, w1)
         /\ ispcrtRelease 3 w1 = (Returned tt, w)
         /\ fst (ispcrtUseCount 3 (snd (ispcrtRelease 3 w1))) = Returned 1))
  /\ (exists h' s',
        new_ (PFuture {| valid := false; time := 0 |}) (store w0) = (Ok h', s')
        /\ h' <> nullptr
        /\ objects (store w0) !! h' = None
        /\ ispcrtUseCount h' (with_store s' w0) = (Returned 1, with_store s' w0))
  /\ (fst (@ispcrtGetDevice b ISPCRT_DEVICE_TYPE_CPU 0 w0) = Returned 1%N
      /\ ispcrtUseCount 1 (snd (@ispcrtGetDevice b ISPCRT_DEVICE_TYPE_CPU 0 w0))
         = (Returned 1, snd (@ispcrtGetDevice b ISPCRT_DEVICE_TYPE_CPU 0 w0)))
  /\ (fst (@ispcrtNewTaskQueue b 1 w) = Returned 9%N
      /\ ispcrtUseCount 9 (snd (@ispcrtNewTaskQueue b 1 w))
         = (Returned 1, snd (@ispcrtNewTaskQueue b 1 w))).
Proof.
  intros b w w0.
  destruct retain_release_use_count as (Hlive & Hnew & Hcons & Hfact).
  split; [|split; [|split]].
  - destruct (Hlive w 3%N
                {| refCounter := 1;
                   payload := PMemoryView {| hostPtr := 64; devicePtr := 128;
                                             numBytes := 4; isShared := false |} |}
                eq_refl ltac:(simpl; lia)) as (Hu & Hr & _).
    split; [exact Hu | exact Hr].
  - exact (Hnew w0 (PFuture {| valid := false; time := 0 |})).
  - split; [reflexivity|].
    apply (Hcons b (CallGetDevice ISPCRT_DEVICE_TYPE_CPU 0) w0 1%N).
    + reflexivity.
    + reflexivity.
    + unfold nullptr. discriminate.
  - split; [reflexivity|].
    apply (Hfact b (CallNewTaskQueue 1) (@Device_newTaskQueue b 1) w 9%N).
    + reflexivity.
    + exact (new_creates_counted (PTaskQueue 1 [])).
    + reflexivity.
    + unfold nullptr. discriminate.
    + reflexivity.
Defined.

(** ** Memory views *)

(** C10.  [ispcrtSharedPtr] is [ispcrtDevicePtr]: on every handle and in
    every state both give the same result, the view's device pointer;
    and it is not [ispcrtHostPtr], from which it differs on a view whose
    host and device pointers differ. *)
Theorem shared_ptr_is_device_ptr :
  (forall (h : N) (w : World), ispcrtSharedPtr h w = ispcrtDevicePtr h w)
  /\ (forall (h : N) (w : World) (mv : MemoryView),
        holds (store w) h (PMemoryView mv) ->
        ispcrtSharedPtr h w = (Returned (devicePtr mv), w))
  /\ ispcrtSharedPtr 3 (Sim.world Sim.store1) <> ispcrtHostPtr 3 (Sim.world Sim.store1).
Proof.
  split; [reflexivity|]. split.
  - intros h w mv Hh. unfold ispcrtSharedPtr.
    assert (Ht : ispcrtSharedPtr_try h (store w) = (Ok (devicePtr mv), store w)).
    { unfold ispcrtSharedPtr_try, referenceFromHandle_MemoryView. unfold_monad.
      destruct (holds_referenceFromHandle _ _ _ Hh) as [c ->]. reflexivity. }
    rewrite (ISPCRT_CATCH_END_ok _ _ _ _ _ Ht), with_store_same. reflexivity.
  - vm_compute. discriminate.
Qed.

(** ** Futures *)

(** Queries on a future that is not valid.  [ispcrtFutureGetTimeNs] returns
    [(uint64_t)-1] on a null handle and on a future that is not valid;
    [ispcrtFutureIsValid] returns false on a future that is not valid.
    None of these calls the error function or changes the state. *)
Lemma invalid_future_queries (w : World) (f : N) (fu : Future) :
  holds (store w) f (PFuture fu) ->
  valid fu = false ->
  f <> nullptr ->
  ispcrtFutureGetTimeNs nullptr w = (Returned minus_one_u64, w)
  /\ ispcrtFutureGetTimeNs f w = (Returned minus_one_u64, w)
  /\ ispcrtFutureIsValid f w = (Returned false, w).
Proof.
  intros Hf Hv Hn. split; [|split].
  - unfold ispcrtFutureGetTimeNs.
    rewrite (ISPCRT_CATCH_END_ok _ _ w minus_one_u64 (store w)), with_store_same;
      reflexivity.
  - unfold ispcrtFutureGetTimeNs.
    rewrite (ISPCRT_CATCH_END_ok _ _ w minus_one_u64 (store w)), with_store_same;
      [reflexivity|].
    unfold ispcrtFutureGetTimeNs_try, referenceFromHandle_Future. unfold_monad.
    rewrite decide_False by exact Hn.
    destruct (holds_referenceFromHandle _ _ _ Hf) as [c ->]. simpl.
    rewrite Hv. reflexivity.
  - unfold ispcrtFutureIsValid.
    rewrite (ISPCRT_CATCH_END_ok _ _ w false (store w)), with_store_same;
      [reflexivity|].
    unfold ispcrtFutureIsValid_try, referenceFromHandle_Future. unfold_monad.
    destruct (holds_referenceFromHandle _ _ _ Hf) as [c ->]. simpl.
    rewrite Hv. reflexivity.
Qed.

(** C5, where the code departs from it.  [ispcrtFutureIsValid] has no
    null check: on the null handle it dereferences a null pointer, which
    is undefined behaviour, where [ispcrtFutureGetTimeNs] tests [!f]
    first and returns.  No object lives at address 0, in the store of the
    example as in any store built by [new_]. *)
Theorem future_is_valid_null_faults :
  let w := Sim.world Sim.store1 in
  objects (store w) !! nullptr = None
  /\ ispcrtFutureGetTimeNs nullptr w = (Returned minus_one_u64, w)
  /\ ispcrtFutureIsValid nullptr w = (Fault, w)
  /\ ispcrtFutureIsValid nullptr w <> (Returned false, w).
Proof.
  split; [reflexivity|]. split; [reflexivity|]. split; [reflexivity|].
  vm_compute. discriminate.
Qed.

(** * Further properties of the entry points *)

(** ** Every entry point at once *)

Lemma ISPCRT_CATCH_END_ext {A} (a : A) (m1 m2 : B A) (w : World) :
  m1 (store w) = m2 (store w) ->
  ISPCRT_CATCH_END a (liftB m1) w = ISPCRT_CATCH_END a (liftB m2) w.
Proof. intros Hm. unfold ISPCRT_CATCH_END, liftB. rewrite Hm. reflexivity. Qed.

Lemma ISPCRT_CATCH_END_ok_same {A} (a : A) (m : B A) (w : World) (r : A) :
  m (store w) = (Ok r, store w) ->
  ISPCRT_CATCH_END a (liftB m) w = (Returned r, w).
Proof.
  intros Hm. rewrite (ISPCRT_CATCH_END_ok _ _ _ _ _ Hm), with_store_same. reflexivity.
Qed.

Lemma holds_Context (s : Store) (h : N) (k : BackendKind) (n : N) :
  holds s h (PContext k n) -> referenceFromHandle_Context h s = (Ok (k, n), s).
Proof.
  intros Hh. unfold referenceFromHandle_Context. unfold_monad.
  destruct (holds_referenceFromHandle _ _ _ Hh) as [c ->]. reflexivity.
Qed.

Section Uniform.
Context `{!Backend}.

Lemma ISPCRT_CATCH_END_frame {A} (a : A) (m : B A) (w : World) :
  let r := ISPCRT_CATCH_END a (liftB m) w in
  g_errorFcn (snd r) = g_errorFcn w
  /\ (errorCalls (snd r) = errorCalls w
      \/ exists f code msg,
           g_errorFcn w = Some f /\ errorCalls (snd r) = errorCalls w ++ [(f, code, msg)]).
Proof.
  destruct (m (store w)) as [[r0|e|] s'] eqn:Hm; simpl.
  - rewrite (ISPCRT_CATCH_END_ok _ _ _ _ _ Hm). split; [reflexivity | left; reflexivity].
  - rewrite (ISPCRT_CATCH_END_throw _ _ _ _ _ Hm).
    destruct (catch_clauses_failed_with a e (with_store s' w)) as (_ & Hrep & _ & Hg).
    split; [exact Hg|]. unfold reported_once in Hrep. simpl in Hrep.
    destruct (g_errorFcn w) as [f|] eqn:Hf; [right; eauto | left; exact Hrep].
  - rewrite (ISPCRT_CATCH_END_ub _ _ _ _ Hm). split; [reflexivity | left; reflexivity].
Qed.

(** X1.  With an error function that returns or ends the process, no
    C++ exception leaves an entry point whose work is done inside a try
    block, whatever the arguments, the state and what the backend throws.
    That is every entry point but [ispcrtGetDeviceFromContext] and
    [ispcrtGetDeviceFromNativeHandle], which dereference the context and
    read its device type before any try block and are left out. *)
Theorem guarded_calls_never_raise (c : Call) (w : World) (e : exn) :
  dereferences_outside_try c = false ->
  fst (exec c w) <> Raised e.
Proof.
  destruct c; simpl; intros Hc;
    try discriminate Hc; try apply ISPCRT_CATCH_END_not_raised.
  discriminate.
Qed.

(** X3.  Whatever the entry point, its arguments, the state and the
    backend, one call makes the error function run at most once, and
    only the function registered when the call began. *)
Theorem at_most_one_report (c : Call) (w : World) :
  errorCalls (snd (exec c w)) = errorCalls w
  \/ exists f code msg,
       g_errorFcn w = Some f
       /\ errorCalls (snd (exec c w)) = errorCalls w ++ [(f, code, msg)].
Proof.
  destruct (exec_catch c w) as [[fcn ->] | ->]; [left; reflexivity|].
  exact (proj2 (ISPCRT_CATCH_END_frame _ _ w)).
Qed.

End Uniform.

(** ** Device and context selection *)

Section Selection.
Context `{!Backend}.

(** X5.  A device type out of the enumeration, or one that names a
    backend left out of the build, is refused by the four entry points
    that switch on it: the failure is reported once with
    ISPCRT_UNKNOWN_ERROR, the sentinel comes back and the store is
    untouched, no backend code having run. *)
Theorem unsupported_device_type_rejected (type : ISPCRTDeviceType) (msg : string)
    (w : World) (deviceIdx c info : N) :
  rejection_message type = Some msg ->
  info <> nullptr ->
  failed_with (ispcrtGetDevice type deviceIdx w) w (store w) ISPCRT_UNKNOWN_ERROR msg nullptr
  /\ failed_with (ispcrtGetContextFromNativeHandle type c w) w (store w)
       ISPCRT_UNKNOWN_ERROR msg nullptr
  /\ failed_with (ispcrtGetDeviceCount type w) w (store w) ISPCRT_UNKNOWN_ERROR msg 0%N
  /\ failed_with (ispcrtGetDeviceInfo type deviceIdx info w) w (store w)
       ISPCRT_UNKNOWN_ERROR msg tt.
Proof.
  intros Hmsg Hinfo.
  assert (Hthrow :
    getISPCRTDevice_try type nullptr nullptr deviceIdx (store w)
      = (Throw (std_runtime_error msg), store w)
    /\ getISPCRTContext_try type c (store w) = (Throw (std_runtime_error msg), store w)
    /\ ispcrtGetDeviceCount_try type (store w) = (Throw (std_runtime_error msg), store w)
    /\ ispcrtGetDeviceInfo_try type deviceIdx info (store w)
       = (Throw (std_runtime_error msg), store w)).
  { unfold getISPCRTDevice_try, getISPCRTContext_try, ispcrtGetDeviceCount_try,
      ispcrtGetDeviceInfo_try.
    rewrite (decide_False (P := info = nullptr)) by exact Hinfo.
    unfold rejection_message in Hmsg. unfold_monad.
    destruct type; simpl in *.
    - destruct ISPCRT_BUILD_CPU; [discriminate Hmsg|].
      injection Hmsg as <-. repeat split.
    - destruct ISPCRT_BUILD_GPU; [discriminate Hmsg|].
      injection Hmsg as <-. repeat split.
    - discriminate Hmsg.
    - injection Hmsg as <-. repeat split. }
  destruct Hthrow as (H1 & H2 & H3 & H4).
  split; [exact (rejected_failed_with nullptr _ w _ H1)|].
  split; [exact (rejected_failed_with nullptr _ w _ H2)|].
  split; [exact (rejected_failed_with 0%N _ w _ H3)|].
  exact (rejected_failed_with tt _ w _ H4).
Qed.

(** X6.  With neither backend in the build an AUTO request creates
    nothing and reports nothing: the null handle comes back as if no
    failure had occurred. *)
Theorem auto_without_backend_is_silent_null (w : World) (deviceIdx c : N) :
  ISPCRT_BUILD_CPU = false ->
  ISPCRT_BUILD_GPU = false ->
  ispcrtGetDevice ISPCRT_DEVICE_TYPE_AUTO deviceIdx w = (Returned nullptr, w)
  /\ ispcrtGetContextFromNativeHandle ISPCRT_DEVICE_TYPE_AUTO c w = (Returned nullptr, w).
Proof.
  intros Hcpu Hgpu. split.
  - apply ISPCRT_CATCH_END_ok_same. unfold getISPCRTDevice_try. unfold_monad.
    rewrite Hcpu, Hgpu. reflexivity.
  - apply ISPCRT_CATCH_END_ok_same. unfold getISPCRTContext_try.
    rewrite Hcpu, Hgpu. reflexivity.
Qed.

(** X7.  With the CPU backend alone in the build, an AUTO request is a
    CPU request, for devices and for contexts: the GPU constructors are
    not run. *)
Theorem auto_is_cpu_without_gpu (w : World) (deviceIdx c : N) :
  ISPCRT_BUILD_CPU = true ->
  ISPCRT_BUILD_GPU = false ->
  ispcrtGetDevice ISPCRT_DEVICE_TYPE_AUTO deviceIdx w
    = ispcrtGetDevice ISPCRT_DEVICE_TYPE_CPU deviceIdx w
  /\ ispcrtGetContextFromNativeHandle ISPCRT_DEVICE_TYPE_AUTO c w
     = ispcrtGetContextFromNativeHandle ISPCRT_DEVICE_TYPE_CPU c w.
Proof.
  intros Hcpu Hgpu. split; apply ISPCRT_CATCH_END_ext.
  - unfold getISPCRTDevice_try. unfold_monad. rewrite Hcpu, Hgpu. reflexivity.
  - unfold getISPCRTContext_try. rewrite Hcpu, Hgpu. reflexivity.
Qed.

(** X8.  With the GPU backend alone in the build there is nothing to
    fall back to: when the GPU constructor throws under an AUTO request,
    the failure is reported once and the null handle returned. *)
Theorem auto_gpu_only_failure_reported (w : World) (deviceIdx : N) (e : exn) (s1 : Store) :
  ISPCRT_BUILD_CPU = false ->
  ISPCRT_BUILD_GPU = true ->
  GPUDevice_ctor0 (store w) = (Throw e, s1) ->
  failed_with (ispcrtGetDevice ISPCRT_DEVICE_TYPE_AUTO deviceIdx w) w s1
    (fst (caught e)) (snd (caught e)) nullptr.
Proof.
  intros Hcpu Hgpu Hg.
  assert (Ht : getISPCRTDevice_try ISPCRT_DEVICE_TYPE_AUTO nullptr nullptr deviceIdx (store w)
               = (Throw e, s1)).
  { unfold getISPCRTDevice_try, new_GPUDevice0. unfold_monad.
    rewrite Hcpu, Hgpu. simpl. rewrite Hg. reflexivity. }
  unfold ispcrtGetDevice, getISPCRTDevice.
  rewrite (ISPCRT_CATCH_END_throw _ _ _ _ _ Ht).
  apply failed_with_store, catch_clauses_failed_with.
Qed.

(** X9.  With both backends in the build, when the GPU constructor and
    then the CPU constructor throw under an AUTO request, it is the CPU
    constructor's exception that is reported, once; the GPU's is lost,
    and the null handle is returned. *)
Theorem auto_both_fail_reports_cpu (w : World) (deviceIdx : N) (e1 e2 : exn) (s1 s2 : Store) :
  ISPCRT_BUILD_GPU = true ->
  ISPCRT_BUILD_CPU = true ->
  GPUDevice_ctor0 (store w) = (Throw e1, s1) ->
  CPUDevice_ctor s1 = (Throw e2, s2) ->
  failed_with (ispcrtGetDevice ISPCRT_DEVICE_TYPE_AUTO deviceIdx w) w s2
    (fst (caught e2)) (snd (caught e2)) nullptr.
Proof.
  intros Hgpu Hcpu Hg Hc.
  assert (Ht : getISPCRTDevice_try ISPCRT_DEVICE_TYPE_AUTO nullptr nullptr deviceIdx (store w)
               = (Throw e2, s2)).
  { unfold getISPCRTDevice_try, try_catch_all, new_GPUDevice0, new_CPUDevice. unfold_monad.
    rewrite Hcpu, Hgpu. simpl. rewrite Hg, Hc. reflexivity. }
  unfold ispcrtGetDevice, getISPCRTDevice.
  rewrite (ISPCRT_CATCH_END_throw _ _ _ _ _ Ht).
  apply failed_with_store, catch_clauses_failed_with.
Qed.

(** X10.  With both backends in the build and a GPU constructor that
    succeeds, an AUTO request returns the handle of a new GPU device with
    use-count 1; the CPU constructor is not run and nothing is reported. *)
Theorem auto_prefers_gpu (w : World) (deviceIdx : N) (s1 : Store) (i : N) :
  ISPCRT_BUILD_GPU = true ->
  ISPCRT_BUILD_CPU = true ->
  GPUDevice_ctor0 (store w) = (Ok i, s1) ->
  exists h : N,
    h <> nullptr
    /\ objects s1 !! h = None
    /\ ispcrtGetDevice ISPCRT_DEVICE_TYPE_AUTO deviceIdx w =
       (Returned h,
        with_store (set_objects (insert h {| refCounter := 1; payload := PDevice GPU i |}) s1) w).
Proof.
  intros Hgpu Hcpu Hg.
  exists (fresh ({[nullptr]} ∪ dom (objects s1))).
  split; [apply fresh_handle_not_null|]. split; [apply fresh_handle_unused|].
  apply ISPCRT_CATCH_END_ok.
  unfold getISPCRTDevice_try, try_catch_all, new_GPUDevice0. unfold_monad.
  rewrite Hgpu, Hcpu. simpl. rewrite Hg. reflexivity.
Qed.

(** X11.  Contexts are selected as devices are: with both backends in
    the build, when the GPU context constructor throws under an AUTO
    request, a CPU context is constructed and its handle returned, and
    nothing is reported. *)
Theorem auto_context_falls_back_to_cpu (w : World) (e : exn) (s1 s2 : Store) (n : N) :
  ISPCRT_BUILD_GPU = true ->
  ISPCRT_BUILD_CPU = true ->
  GPUContext_ctor0 (store w) = (Throw e, s1) ->
  CPUContext_ctor s1 = (Ok n, s2) ->
  exists h : N,
    h <> nullptr
    /\ objects s2 !! h = None
    /\ ispcrtNewContext ISPCRT_DEVICE_TYPE_AUTO w =
       (Returned h,
        with_store (set_objects (insert h {| refCounter := 1; payload := PContext CPU n |}) s2) w).
Proof.
  intros Hgpu Hcpu Hg Hc.
  exists (fresh ({[nullptr]} ∪ dom (objects s2))).
  split; [apply fresh_handle_not_null|]. split; [apply fresh_handle_unused|].
  apply ISPCRT_CATCH_END_ok.
  unfold getISPCRTContext_try, try_catch_all, new_GPUContext0, new_CPUContext. unfold_monad.
  rewrite Hgpu, Hcpu. simpl. rewrite Hg, Hc. reflexivity.
Qed.

(** X12.  Only an explicit GPU request looks at the device index or at
    the native context handle: for any other device type,
    [ispcrtGetDevice] does the same for every index and
    [ispcrtGetContextFromNativeHandle] is [ispcrtNewContext]. *)
Theorem index_and_native_handle_only_for_gpu (type : ISPCRTDeviceType) (i j c : N) (w : World) :
  type <> ISPCRT_DEVICE_TYPE_GPU ->
  ispcrtGetDevice type i w = ispcrtGetDevice type j w
  /\ ispcrtGetContextFromNativeHandle type c w = ispcrtNewContext type w.
Proof.
  intros Ht. destruct type; try (split; reflexivity). contradiction Ht; reflexivity.
Qed.

End Selection.

(** ** Devices made from a context *)

Section FromContext.
Context `{!Backend}.

Lemma getISPCRTDevice_try_context (type : ISPCRTDeviceType) (context d deviceIdx : N)
    (k : BackendKind) (n : N) (s : Store) :
  context <> nullptr ->
  holds s context (PContext k n) ->
  type <> ISPCRT_DEVICE_TYPE_GPU ->
  getISPCRTDevice_try type context d deviceIdx s
    = getISPCRTDevice_try type nullptr nullptr 0%N s.
Proof.
  intros Hn Hh Ht. destruct type; [|contradiction Ht; reflexivity| |];
    unfold getISPCRTDevice_try; unfold_monad;
    rewrite (decide_False (P := context = nullptr)) by exact Hn;
    rewrite (holds_Context _ _ _ _ Hh); reflexivity.
Qed.

(** X13.  A device made from a GPU context is a GPU device built on the
    context's native handle: [ispcrtGetDeviceFromContext] hands the GPU
    constructor that handle, a null native device and the index, and
    [ispcrtGetDeviceFromNativeHandle] the handle, the native device and
    index 0.  There is no fallback: what the constructor throws is
    reported, even with the CPU backend in the build. *)
Theorem device_from_gpu_context (w : World) (context deviceIdx d n : N) :
  context <> nullptr ->
  holds (store w) context (PContext GPU n) ->
  ISPCRT_BUILD_GPU = true ->
  ispcrtGetDeviceFromContext context deviceIdx w
    = ISPCRT_CATCH_END nullptr (liftB (new_GPUDevice n nullptr deviceIdx)) w
  /\ ispcrtGetDeviceFromNativeHandle context d w
     = ISPCRT_CATCH_END nullptr (liftB (new_GPUDevice n d 0%N)) w
  /\ (forall e s1,
        GPUDevice_ctor n nullptr deviceIdx (store w) = (Throw e, s1) ->
        failed_with (ispcrtGetDeviceFromContext context deviceIdx w) w s1
          (fst (caught e)) (snd (caught e)) nullptr).
Proof.
  intros Hn Hh Hgpu.
  pose proof (holds_Context _ _ _ _ Hh) as Hc.
  assert (H1 : ispcrtGetDeviceFromContext context deviceIdx w
               = ISPCRT_CATCH_END nullptr (liftB (new_GPUDevice n nullptr deviceIdx)) w).
  { destruct (ispcrtGetDeviceFromContext_eq context deviceIdx w)
      as [(c & Hc' & ->)|(Hc' & _)]; rewrite Hc in Hc'; [|discriminate Hc'].
    injection Hc' as <-. apply ISPCRT_CATCH_END_ext.
    unfold getISPCRTDevice_try. unfold_monad.
    rewrite (decide_False (P := context = nullptr)) by exact Hn.
    rewrite Hc. simpl. rewrite Hgpu. reflexivity. }
  split; [exact H1|]. split.
  - destruct (ispcrtGetDeviceFromNativeHandle_eq context d w)
      as [(c & Hc' & ->)|(Hc' & _)]; rewrite Hc in Hc'; [|discriminate Hc'].
    injection Hc' as <-. apply ISPCRT_CATCH_END_ext.
    unfold getISPCRTDevice_try. unfold_monad.
    rewrite (decide_False (P := context = nullptr)) by exact Hn.
    rewrite Hc. simpl. rewrite Hgpu. reflexivity.
  - intros e s1 Hg. rewrite H1.
    assert (Ht : new_GPUDevice n nullptr deviceIdx (store w) = (Throw e, s1)).
    { unfold new_GPUDevice. unfold_monad. rewrite Hg. reflexivity. }
    rewrite (ISPCRT_CATCH_END_throw _ _ _ _ _ Ht).
    apply failed_with_store, catch_clauses_failed_with.
Qed.

(** X14.  A device made from a CPU context is a plain CPU device: both
    entry points do what [ispcrtGetDevice(CPU, 0)] does, whatever the
    index, the native device and the context's native handle. *)
Theorem device_from_cpu_context (w : World) (context deviceIdx d n : N) :
  context <> nullptr ->
  holds (store w) context (PContext CPU n) ->
  ispcrtGetDeviceFromContext context deviceIdx w
    = ispcrtGetDevice ISPCRT_DEVICE_TYPE_CPU 0%N w
  /\ ispcrtGetDeviceFromNativeHandle context d w
     = ispcrtGetDevice ISPCRT_DEVICE_TYPE_CPU 0%N w.
Proof.
  intros Hn Hh.
  pose proof (holds_Context _ _ _ _ Hh) as Hc.
  split.
  - destruct (ispcrtGetDeviceFromContext_eq context deviceIdx w)
      as [(c & Hc' & ->)|(Hc' & _)]; rewrite Hc in Hc'; [|discriminate Hc'].
    injection Hc' as <-. apply ISPCRT_CATCH_END_ext.
    apply (getISPCRTDevice_try_context ISPCRT_DEVICE_TYPE_CPU context nullptr deviceIdx
             CPU n (store w) Hn Hh). discriminate.
  - destruct (ispcrtGetDeviceFromNativeHandle_eq context d w)
      as [(c & Hc' & ->)|(Hc' & _)]; rewrite Hc in Hc'; [|discriminate Hc'].
    injection Hc' as <-. apply ISPCRT_CATCH_END_ext.
    apply (getISPCRTDevice_try_context ISPCRT_DEVICE_TYPE_CPU context d 0%N
             CPU n (store w) Hn Hh). discriminate.
Qed.

End FromContext.

(** ** Device information *)

Section DeviceInfo.
Context `{!Backend}.

(** X15.  A null [info] pointer is refused before the device type is
    looked at: whatever the type and the build, the failure "info cannot
    be null!" is reported once and no backend is asked. *)
Theorem null_info_rejected_first (type : ISPCRTDeviceType) (deviceIdx : N) (w : World) :
  failed_with (ispcrtGetDeviceInfo type deviceIdx nullptr w) w (store w)
    ISPCRT_UNKNOWN_ERROR "info cannot be null!" tt.
Proof.
  exact (rejected_failed_with tt (ispcrtGetDeviceInfo_try type deviceIdx nullptr) w
           (std_runtime_error "info cannot be null!") eq_refl).
Qed.

(** X16.  When the backend answers, [ispcrtGetDeviceInfo] stores the
    answer in the caller's struct and nowhere else: the other structs and
    the objects are as the backend left them, and nothing is reported.
    When the backend throws, the struct is not written. *)
Theorem device_info_written_to_caller_struct (w : World) (deviceIdx info : N) :
  ISPCRT_BUILD_CPU = true ->
  info <> nullptr ->
  (forall v s1 old,
     cpu_deviceInfo deviceIdx (store w) = (Ok v, s1) ->
     infos s1 !! info = Some old ->
     ispcrtGetDeviceInfo ISPCRT_DEVICE_TYPE_CPU deviceIdx info w =
       (Returned tt, with_store (set_infos (insert info v) s1) w))
  /\ (forall e s1,
        cpu_deviceInfo deviceIdx (store w) = (Throw e, s1) ->
        failed_with (ispcrtGetDeviceInfo ISPCRT_DEVICE_TYPE_CPU deviceIdx info w) w s1
          (fst (caught e)) (snd (caught e)) tt).
Proof.
  intros Hcpu Hn. split.
  - intros v s1 old Hv Hold.
    unfold ispcrtGetDeviceInfo.
    change (ISPCRT_CATCH_END_NO_RETURN ?m) with (ISPCRT_CATCH_END tt m).
    apply ISPCRT_CATCH_END_ok.
    unfold ispcrtGetDeviceInfo_try, write_info. unfold_monad.
    rewrite (decide_False (P := info = nullptr)) by exact Hn.
    rewrite Hcpu, Hv, Hold. reflexivity.
  - intros e s1 He.
    assert (Ht : ispcrtGetDeviceInfo_try ISPCRT_DEVICE_TYPE_CPU deviceIdx info (store w)
                 = (Throw e, s1)).
    { unfold ispcrtGetDeviceInfo_try. unfold_monad.
      rewrite (decide_False (P := info = nullptr)) by exact Hn.
      rewrite Hcpu, He. reflexivity. }
    unfold ispcrtGetDeviceInfo.
    change (ISPCRT_CATCH_END_NO_RETURN ?m) with (ISPCRT_CATCH_END tt m).
    rewrite (ISPCRT_CATCH_END_throw _ _ _ _ _ Ht).
    apply failed_with_store, catch_clauses_failed_with.
Qed.

End DeviceInfo.

(** ** Checks that let the call through *)

Section Forwarding.
Context `{!Backend}.

(** X17.  The size check of [ispcrtCopyMemoryView] is inclusive: a size
    up to the byte size of both views, equal to it or zero included,
    passes, and the call is then the queue's [copyMemoryView] under the
    catch clauses, with the same views and size. *)
Theorem copy_within_views_forwarded (w : World) (q mvDst mvSrc size : N)
    (dev : N) (cmds : list Command) (viewDst viewSrc : MemoryView) :
  holds (store w) q (PTaskQueue dev cmds) ->
  holds (store w) mvDst (PMemoryView viewDst) ->
  holds (store w) mvSrc (PMemoryView viewSrc) ->
  (size <= numBytes viewDst)%N ->
  (size <= numBytes viewSrc)%N ->
  ispcrtCopyMemoryView q mvDst mvSrc size w
    = ISPCRT_CATCH_END_NO_RETURN (liftB (TaskQueue_copyMemoryView q mvDst mvSrc size)) w.
Proof.
  intros Hq Hd Hs Hld Hls.
  unfold ispcrtCopyMemoryView.
  change (ISPCRT_CATCH_END_NO_RETURN ?m) with (ISPCRT_CATCH_END tt m).
  apply ISPCRT_CATCH_END_ext.
  unfold ispcrtCopyMemoryView_try, referenceFromHandle_TaskQueue,
    referenceFromHandle_MemoryView.
  unfold_monad.
  destruct (holds_referenceFromHandle _ _ _ Hq) as [cq ->]; simpl.
  destruct (holds_referenceFromHandle _ _ _ Hd) as [cd ->]; simpl.
  destruct (holds_referenceFromHandle _ _ _ Hs) as [cs ->]; simpl.
  destruct (N.ltb_spec (numBytes viewDst) size) as [Hlt|_]; [lia|].
  destruct (N.ltb_spec (numBytes viewSrc) size) as [Hlt|_]; [lia|].
  reflexivity.
Qed.

(** X18.  A device takes SHARED and DEVICE memory views, a context
    SHARED ones only, each whatever else the store holds: for these
    allocation types the call is the backend's [newMemoryView] under the
    catch clauses, with the arguments and flags unchanged. *)
Theorem supported_alloc_type_forwarded (w : World) (appMemory numBytes : N) :
  (forall (d : N) (kd : BackendKind) (unit_index : N) (fd : ISPCRTNewMemoryViewFlags),
     holds (store w) d (PDevice kd unit_index) ->
     allocType fd = ISPCRT_ALLOC_TYPE_SHARED \/ allocType fd = ISPCRT_ALLOC_TYPE_DEVICE ->
     ispcrtNewMemoryView d appMemory numBytes (Some fd) w
       = ISPCRT_CATCH_END nullptr (liftB (Device_newMemoryView d appMemory numBytes fd)) w)
  /\ (forall (c : N) (kc : BackendKind) (native : N) (fc : ISPCRTNewMemoryViewFlags),
        holds (store w) c (PContext kc native) ->
        allocType fc = ISPCRT_ALLOC_TYPE_SHARED ->
        ispcrtNewMemoryViewForContext c appMemory numBytes (Some fc) w
          = ISPCRT_CATCH_END nullptr (liftB (Context_newMemoryView c appMemory numBytes fc)) w).
Proof.
  split.
  - intros d kd unit_index fd Hd Hfd. apply ISPCRT_CATCH_END_ext.
    unfold ispcrtNewMemoryView_try, referenceFromHandle_Device. unfold_monad.
    destruct (holds_referenceFromHandle _ _ _ Hd) as [cd ->]; simpl.
    destruct Hfd as [-> | ->]; reflexivity.
  - intros c kc native fc Hc Hfc. apply ISPCRT_CATCH_END_ext.
    unfold ispcrtNewMemoryViewForContext_try. unfold_monad.
    rewrite (holds_Context _ _ _ _ Hc); simpl.
    rewrite Hfc. reflexivity.
Qed.

(** X19.  The parameter view of a launch is optional: with a null [p]
    the queue's [launch] gets a null parameter pointer and [p] is not
    dereferenced; with a [p] that designates a memory view it gets [p]. *)
Theorem launch_params_optional (w : World) (q k p dim0 dim1 dim2 : N)
    (dev kdev kmod : N) (name : string) (cmds : list Command) :
  holds (store w) q (PTaskQueue dev cmds) ->
  holds (store w) k (PKernel kdev kmod name) ->
  p = nullptr \/ (exists mv, holds (store w) p (PMemoryView mv)) ->
  ispcrtLaunch3D q k p dim0 dim1 dim2 w
    = ISPCRT_CATCH_END nullptr (liftB (TaskQueue_launch q k p dim0 dim1 dim2)) w.
Proof.
  intros Hq Hk Hp. apply ISPCRT_CATCH_END_ext.
  unfold ispcrtLaunch3D_try, referenceFromHandle_TaskQueue, referenceFromHandle_Kernel,
    referenceFromHandle_MemoryView.
  unfold_monad.
  destruct (holds_referenceFromHandle _ _ _ Hq) as [cq ->]; simpl.
  destruct (holds_referenceFromHandle _ _ _ Hk) as [ck ->]; simpl.
  destruct (decide (p = nullptr)) as [-> | Hn]; [reflexivity|].
  destruct Hp as [Hp | [mv Hmv]]; [contradiction|].
  destruct (holds_referenceFromHandle _ _ _ Hmv) as [cp ->]. reflexivity.
Qed.

End Forwarding.

(** ** Futures that have completed *)

(** X20.  On a future that is valid, [ispcrtFutureIsValid] returns true
    and [ispcrtFutureGetTimeNs] returns the future's time as it is (so a
    time of 2^64-1 cannot be told from "not available"); the state is
    unchanged and nothing is reported. *)
Theorem valid_future_queries (w : World) (f : N) (fu : Future) :
  holds (store w) f (PFuture fu) ->
  valid fu = true ->
  f <> nullptr ->
  ispcrtFutureIsValid f w = (Returned true, w)
  /\ ispcrtFutureGetTimeNs f w = (Returned (time fu), w).
Proof.
  intros Hf Hv Hn. split; apply ISPCRT_CATCH_END_ok_same.
  - unfold ispcrtFutureIsValid_try, referenceFromHandle_Future. unfold_monad.
    destruct (holds_referenceFromHandle _ _ _ Hf) as [c ->]. simpl.
    rewrite Hv. reflexivity.
  - unfold ispcrtFutureGetTimeNs_try, referenceFromHandle_Future. unfold_monad.
    rewrite decide_False by exact Hn.
    destruct (holds_referenceFromHandle _ _ _ Hf) as [c ->]. simpl.
    rewrite Hv. reflexivity.
Qed.

(** ** The error function at work *)

Section Handlers.
Context `{!Backend}.

(** X21.  While [defaultErrorFcn] is registered every failure is fatal,
    at every entry point: the call does not return; the process ends
    with status -1 after one line was written to [std::cerr], made of the
    error code and the message. *)
Theorem default_handler_is_fatal (c : Call) (w : World) (e : exn) (s' : Store) :
  g_errorFcn w = Some defaultErrorFcn ->
  work c (store w) = (Throw e, s') ->
  fst (exec c w) = Exited (-1)
  /\ cerr (snd (exec c w)) =
     cerr w ++ [cerr_str "ISPCRT Error ("; cerr_error (fst (caught e)); cerr_str "): ";
                cerr_str (snd (caught e)); cerr_endl]
  /\ store (snd (exec c w)) = s'.
Proof.
  intros Hg Hw. rewrite (exec_throw c w e s' Hw).
  unfold catch_clauses, handleError, call_ErrorFunc, defaultErrorFcn_body. unfold_monad.
  simpl. rewrite Hg. simpl. repeat split.
Qed.

(** X22.  The error function called for a failure is the one registered
    last: after [ispcrtSetErrorFunc(f)] then [ispcrtSetErrorFunc(h)], a
    failing call runs [h] once and [f] not at all, and what the error
    function is told is the code and message of the exception. *)
Theorem latest_registration_is_called (c : Call) (w : World) (f : option ErrorFunc)
    (h : ErrorFunc) (e : exn) (s' : Store) :
  work c (store w) = (Throw e, s') ->
  let w2 := snd (ispcrtSetErrorFunc (Some h) (snd (ispcrtSetErrorFunc f w))) in
  errorCalls (snd (exec c w2)) = errorCalls w ++ [(h, fst (caught e), snd (caught e))]
  /\ fst (exec c w2) = after_report (Some h) (failure_sentinel c).
Proof.
  intros Hw w2.
  assert (Hw2 : work c (store w2) = (Throw e, s')) by exact Hw.
  rewrite (exec_throw c w2 e s' Hw2).
  destruct (catch_clauses_failed_with (failure_sentinel c) e (with_store s' w2))
    as (Hout & Hrep & _ & _).
  split; [exact Hrep | exact Hout].
Qed.

End Handlers.

(** ** The further properties on the small backend *)

Lemma exec_ok_witness :
  let b := Sim.backend true true true in
  let w := Sim.world Sim.store1 in
  fst (@exec b (CallSize 3) w) = Returned 4%N
  /\ errorCalls (snd (@exec b (CallSize 3) w)) = []
  /\ cerr (snd (@exec b (CallSize 3) w)) = []
  /\ store (snd (@exec b (CallSize 3) w)) = Sim.store1.
Proof.
  apply (@exec_ok (Sim.backend true true true) (CallSize 3) (Sim.world Sim.store1)
           4%N Sim.store1).
  reflexivity.
Defined.

Lemma unsupported_device_type_rejected_witness :
  let b := Sim.backend false true true in
  let w := Sim.world Sim.store1 in
  failed_with (@ispcrtGetDevice b ISPCRT_DEVICE_TYPE_CPU 0 w) w Sim.store1
    ISPCRT_UNKNOWN_ERROR "CPU support not enabled" nullptr
  /\ failed_with (@ispcrtGetContextFromNativeHandle b ISPCRT_DEVICE_TYPE_CPU 0 w) w Sim.store1
       ISPCRT_UNKNOWN_ERROR "CPU support not enabled" nullptr
  /\ failed_with (@ispcrtGetDeviceCount b ISPCRT_DEVICE_TYPE_CPU w) w Sim.store1
       ISPCRT_UNKNOWN_ERROR "CPU support not enabled" 0%N
  /\ failed_with (@ispcrtGetDeviceInfo b ISPCRT_DEVICE_TYPE_CPU 0 512 w) w Sim.store1
       ISPCRT_UNKNOWN_ERROR "CPU support not enabled" tt.
Proof.
  apply (@unsupported_device_type_rejected (Sim.backend false true true)
           ISPCRT_DEVICE_TYPE_CPU "CPU support not enabled" (Sim.world Sim.store1) 0 0 512).
  - reflexivity.
  - unfold nullptr. discriminate.
Defined.

Lemma auto_without_backend_is_silent_null_witness :
  let b := Sim.backend false false false in
  let w := Sim.world Sim.store1 in
  @ispcrtGetDevice b ISPCRT_DEVICE_TYPE_AUTO 0 w = (Returned nullptr, w)
  /\ @ispcrtGetContextFromNativeHandle b ISPCRT_DEVICE_TYPE_AUTO 0 w = (Returned nullptr, w).
Proof.
  apply (@auto_without_backend_is_silent_null (Sim.backend false false false)
           (Sim.world Sim.store1) 0 0); reflexivity.
Defined.

Lemma auto_is_cpu_without_gpu_witness :
  let b := Sim.backend true false false in
  let w := Sim.world Sim.store1 in
  @ispcrtGetDevice b ISPCRT_DEVICE_TYPE_AUTO 0 w = @ispcrtGetDevice b ISPCRT_DEVICE_TYPE_CPU 0 w
  /\ @ispcrtGetContextFromNativeHandle b ISPCRT_DEVICE_TYPE_AUTO 0 w
     = @ispcrtGetContextFromNativeHandle b ISPCRT_DEVICE_TYPE_CPU 0 w.
Proof.
  apply (@auto_is_cpu_without_gpu (Sim.backend true false false)
           (Sim.world Sim.store1) 0 0); reflexivity.
Defined.

Lemma auto_gpu_only_failure_reported_witness :
  let b := Sim.backend false true false in
  let w := Sim.world Sim.store1 in
  failed_with (@ispcrtGetDevice b ISPCRT_DEVICE_TYPE_AUTO 0 w) w Sim.store1
    ISPCRT_UNKNOWN_ERROR "no GPU device found" nullptr.
Proof.
  apply (@auto_gpu_only_failure_reported (Sim.backend false true false)
           (Sim.world Sim.store1) 0 (std_runtime_error "no GPU device found") Sim.store1);
    reflexivity.
Defined.

Lemma auto_both_fail_reports_cpu_witness :
  let w := Sim.world Sim.store1 in
  failed_with (@ispcrtGetDevice Sim2.backend ISPCRT_DEVICE_TYPE_AUTO 0 w) w Sim.store1
    ISPCRT_INVALID_OPERATION "no CPU device either" nullptr.
Proof.
  apply (@auto_both_fail_reports_cpu Sim2.backend (Sim.world Sim.store1) 0
           (std_runtime_error "no GPU device found")
           (std_logic_error "no CPU device either") Sim.store1 Sim.store1);
    reflexivity.
Defined.

Lemma auto_prefers_gpu_witness :
  let b := Sim.backend true true true in
  let w := Sim.world Sim.store1 in
  exists h : N,
    h <> nullptr
    /\ objects Sim.store1 !! h = None
    /\ @ispcrtGetDevice b ISPCRT_DEVICE_TYPE_AUTO 0 w =
       (Returned h,
        with_store (set_objects (insert h {| refCounter := 1; payload := PDevice GPU 0 |})
                      Sim.store1) w).
Proof.
  apply (@auto_prefers_gpu (Sim.backend true true true) (Sim.world Sim.store1) 0
           Sim.store1 0); reflexivity.
Defined.

Lemma auto_context_falls_back_to_cpu_witness :
  let b := Sim.backend true true false in
  let w := Sim.world Sim.store1 in
  exists h : N,
    h <> nullptr
    /\ objects Sim.store1 !! h = None
    /\ @ispcrtNewContext b ISPCRT_DEVICE_TYPE_AUTO w =
       (Returned h,
        with_store (set_objects (insert h {| refCounter := 1; payload := PContext CPU 0 |})
                      Sim.store1) w).
Proof.
  apply (@auto_context_falls_back_to_cpu (Sim.backend true true false)
           (Sim.world Sim.store1) (std_runtime_error "no GPU device found")
           Sim.store1 Sim.store1 0); reflexivity.
Defined.

Lemma index_and_native_handle_only_for_gpu_witness :
  let b := Sim.backend true true true in
  let w := Sim.world Sim.store1 in
  @ispcrtGetDevice b ISPCRT_DEVICE_TYPE_CPU 0 w = @ispcrtGetDevice b ISPCRT_DEVICE_TYPE_CPU 5 w
  /\ @ispcrtGetContextFromNativeHandle b ISPCRT_DEVICE_TYPE_CPU 7 w
     = @ispcrtNewContext b ISPCRT_DEVICE_TYPE_CPU w.
Proof.
  apply (@index_and_native_handle_only_for_gpu (Sim.backend true true true)
           ISPCRT_DEVICE_TYPE_CPU 0 5 7 (Sim.world Sim.store1)).
  discriminate.
Defined.

Lemma device_from_gpu_context_witness :
  let b := Sim.backend true true false in
  let w := Sim.world Sim2.store2 in
  failed_with (@ispcrtGetDeviceFromContext b 1 3 w) w Sim2.store2
    ISPCRT_UNKNOWN_ERROR "no GPU device found" nullptr.
Proof.
  destruct (@device_from_gpu_context (Sim.backend true true false) (Sim.world Sim2.store2)
              1 3 0 4096
              ltac:(unfold nullptr; discriminate)
              (ex_intro _ 1 eq_refl) eq_refl) as (_ & _ & Hfail).
  apply (Hfail (std_runtime_error "no GPU device found") Sim2.store2). reflexivity.
Defined.

Lemma device_from_cpu_context_witness :
  let b := Sim.backend true true true in
  let w := Sim.world Sim.store1 in
  @ispcrtGetDeviceFromContext b 5 3 w = @ispcrtGetDevice b ISPCRT_DEVICE_TYPE_CPU 0 w
  /\ @ispcrtGetDeviceFromNativeHandle b 5 77 w = @ispcrtGetDevice b ISPCRT_DEVICE_TYPE_CPU 0 w.
Proof.
  apply (@device_from_cpu_context (Sim.backend true true true) (Sim.world Sim.store1)
           5 3 77 0).
  - unfold nullptr. discriminate.
  - exists 1. reflexivity.
Defined.

Lemma device_info_written_to_caller_struct_witness :
  let b := Sim.backend true true true in
  let w := Sim.world Sim.store1 in
  @ispcrtGetDeviceInfo b ISPCRT_DEVICE_TYPE_CPU 0 512 w =
    (Returned tt,
     with_store (set_infos (insert 512%N {| vendorId := 0; deviceId := 0 |}) Sim.store1) w).
Proof.
  destruct (@device_info_written_to_caller_struct (Sim.backend true true true)
              (Sim.world Sim.store1) 0 512 eq_refl
              ltac:(unfold nullptr; discriminate)) as (Hok & _).
  apply (Hok {| vendorId := 0; deviceId := 0 |} Sim.store1 {| vendorId := 7; deviceId := 7 |});
    reflexivity.
Defined.

Lemma copy_within_views_forwarded_witness :
  let b := Sim.backend true true true in
  let w := Sim.world Sim.store1 in
  @ispcrtCopyMemoryView b 2 3 4 4 w
    = ISPCRT_CATCH_END_NO_RETURN (liftB (@TaskQueue_copyMemoryView b 2 3 4 4)) w.
Proof.
  apply (@copy_within_views_forwarded (Sim.backend true true true) (Sim.world Sim.store1)
           2 3 4 4 1 []
           {| hostPtr := 64; devicePtr := 128; numBytes := 4; isShared := false |}
           {| hostPtr := 256; devicePtr := 256; numBytes := 8; isShared := true |}).
  - exists 1. reflexivity.
  - exists 1. reflexivity.
  - exists 1. reflexivity.
  - simpl. lia.
  - simpl. lia.
Defined.

(** The device half in the store that [ispcrtGetDevice(CPU, 0)] leaves when
    run in an empty store, which holds no context; the context half in a
    store that holds no device. *)
Lemma supported_alloc_type_forwarded_witness :
  let b := Sim.backend true true true in
  let w1 := snd (@ispcrtGetDevice b ISPCRT_DEVICE_TYPE_CPU 0 (Sim.world Sim.empty_store)) in
  let w2 := Sim.world Sim2.store2 in
  @ispcrtNewMemoryView b 1 64 16 (Some {| allocType := ISPCRT_ALLOC_TYPE_DEVICE |}) w1
    = ISPCRT_CATCH_END nullptr
        (liftB (@Device_newMemoryView b 1 64 16 {| allocType := ISPCRT_ALLOC_TYPE_DEVICE |})) w1
  /\ @ispcrtNewMemoryViewForContext b 1 64 16 (Some {| allocType := ISPCRT_ALLOC_TYPE_SHARED |}) w2
     = ISPCRT_CATCH_END nullptr
         (liftB (@Context_newMemoryView b 1 64 16 {| allocType := ISPCRT_ALLOC_TYPE_SHARED |})) w2.
Proof.
  intros b w1 w2. split.
  - apply (proj1 (@supported_alloc_type_forwarded b w1 64 16) 1%N CPU 0%N
             {| allocType := ISPCRT_ALLOC_TYPE_DEVICE |}).
    + exists 1. reflexivity.
    + right. reflexivity.
  - apply (proj2 (@supported_alloc_type_forwarded b w2 64 16) 1%N GPU 4096%N
             {| allocType := ISPCRT_ALLOC_TYPE_SHARED |}).
    + exists 1. reflexivity.
    + reflexivity.
Defined.

Lemma launch_params_optional_witness :
  let b := Sim.backend true true true in
  let w := Sim.world Sim.store1 in
  @ispcrtLaunch3D b 2 8 nullptr 4 2 1 w
    = ISPCRT_CATCH_END nullptr (liftB (@TaskQueue_launch b 2 8 nullptr 4 2 1)) w.
Proof.
  apply (@launch_params_optional (Sim.backend true true true) (Sim.world Sim.store1)
           2 8 nullptr 4 2 1 1 1 7 "saxpy" []).
  - exists 1. reflexivity.
  - exists 1. reflexivity.
  - left. reflexivity.
Defined.

Lemma valid_future_queries_witness :
  let w := Sim.world Sim2.store2 in
  ispcrtFutureIsValid 2 w = (Returned true, w)
  /\ ispcrtFutureGetTimeNs 2 w = (Returned 1500%N, w).
Proof.
  apply (valid_future_queries (Sim.world Sim2.store2) 2 {| valid := true; time := 1500 |}).
  - exists 1. reflexivity.
  - reflexivity.
  - unfold nullptr. discriminate.
Defined.

Lemma default_handler_is_fatal_witness :
  let b := Sim.backend true true true in
  let w := initial_world Sim.store1 in
  let c := CallGetDeviceInfo ISPCRT_DEVICE_TYPE_CPU 3 512 in
  fst (@exec b c w) = Exited (-1)
  /\ cerr (snd (@exec b c w)) =
     [cerr_str "ISPCRT Error ("; cerr_error ISPCRT_UNKNOWN_ERROR; cerr_str "): ";
      cerr_str "Invalid device number"; cerr_endl]
  /\ store (snd (@exec b c w)) = Sim.store1.
Proof.
  apply (@default_handler_is_fatal (Sim.backend true true true)
           (CallGetDeviceInfo ISPCRT_DEVICE_TYPE_CPU 3 512) (initial_world Sim.store1)
           (std_runtime_error "Invalid device number") Sim.store1); reflexivity.
Defined.

Lemma latest_registration_is_called_witness :
  let b := Sim.backend true true true in
  let c := CallGetDeviceCount ISPCRT_DEVICE_TYPE_AUTO in
  let w2 := snd (ispcrtSetErrorFunc (Some (callerErrorFcn 2 comes_back))
                   (snd (ispcrtSetErrorFunc None (Sim.world Sim.store1)))) in
  errorCalls (snd (@exec b c w2)) =
    [(callerErrorFcn 2 comes_back, ISPCRT_UNKNOWN_ERROR, "Device type must be specified"%string)]
  /\ fst (@exec b c w2) = Returned 0%N.
Proof.
  apply (@latest_registration_is_called (Sim.backend true true true)
           (CallGetDeviceCount ISPCRT_DEVICE_TYPE_AUTO) (Sim.world Sim.store1) None
           (callerErrorFcn 2 comes_back) (std_runtime_error "Device type must be specified")
           Sim.store1).
  reflexivity.
Defined.

Lemma guarded_calls_never_raise_witness :
  let b := Sim.backend false true false in
  let e := std_runtime_error "no GPU device found" in
  fst (@exec b (CallGetDevice ISPCRT_DEVICE_TYPE_GPU 0) (Sim.world Sim.store1)) <> Raised e
  /\ fst (@exec b (CallLaunch1D 2 8 0 16) (initial_world Sim.store1)) <> Raised e.
Proof.
  intros b e. split.
  - apply (@guarded_calls_never_raise b (CallGetDevice ISPCRT_DEVICE_TYPE_GPU 0)
             (Sim.world Sim.store1) e). reflexivity.
  - apply (@guarded_calls_never_raise b (CallLaunch1D 2 8 0 16)
             (initial_world Sim.store1) e). reflexivity.
Defined.
